(** * AYUSH/NAMASTE term translation and EMR models

    A shallow embedding of [app/services/ayush_translation.py] (the
    [AYUSHTranslator] class with its three mapping tables and its
    translate / add operations, the global [translator] and the module's
    convenience functions), of the defaulted fields of
    [app/models/emr_models.py] and of the upload endpoint of
    [app/api/endpoints.py], together with the properties the specification
    states about them and further properties read off the code.

    Python values are modelled as follows.
    - [str] is a sequence of Unicode code points ([pystr]); literals are
      written in UTF-8 and decoded by [u].
    - [dict] is an insertion-ordered association list with unique keys
      ([PyDict.t]); iteration follows insertion order and assignment to an
      existing key keeps the key's position.
    - the module-level [logger = logging.getLogger(__name__)] is a piece of
      state ([Logger]); a method is a function from the state of the world
      (translator tables and logger) to an outcome and a new state. *)

From Stdlib Require Import String Ascii List NArith Bool PeanoNat Lia.
Import ListNotations.

Set Implicit Arguments.

(* ------------------------------------------------------------------ *)
(** ** Python strings *)

Module PyStr.

(** A Python [str]: a sequence of code points. *)
Definition pystr : Type := list N.

(** [==] on [str]. *)
Fixpoint eqb (a b : pystr) : bool :=
  match a, b with
  | [], [] => true
  | x :: a', y :: b' => N.eqb x y && eqb a' b'
  | _, _ => false
  end.

(** Decoding of a UTF-8 byte sequence (the encoding of the source file) into
    code points.  A truncated sequence decodes to U+FFFD. *)
Fixpoint utf8_decode (bs : list N) : pystr :=
  match bs with
  | [] => []
  | b0 :: r0 =>
      if (b0 <? 128)%N then b0 :: utf8_decode r0
      else if (b0 <? 224)%N then
        match r0 with
        | b1 :: r1 => ((b0 mod 32) * 64 + b1 mod 64)%N :: utf8_decode r1
        | _ => [65533%N]
        end
      else if (b0 <? 240)%N then
        match r0 with
        | b1 :: b2 :: r2 =>
            ((b0 mod 16) * 4096 + (b1 mod 64) * 64 + b2 mod 64)%N
              :: utf8_decode r2
        | _ => [65533%N]
        end
      else
        match r0 with
        | b1 :: b2 :: b3 :: r3 =>
            ((b0 mod 8) * 262144 + (b1 mod 64) * 4096
             + (b2 mod 64) * 64 + b3 mod 64)%N
              :: utf8_decode r3
        | _ => [65533%N]
        end
  end.

(** A string literal of the source. *)
Definition u (s : string) : pystr :=
  utf8_decode (map N_of_ascii (list_ascii_of_string s)).

(** [str.isspace] of one code point, as CPython decides it
    ([_Py_ascii_whitespace] below 128, [_PyUnicode_IsWhitespace] above). *)
Definition isspace (c : N) : bool :=
  ((9 <=? c) && (c <=? 13) || (28 <=? c) && (c <=? 32)
   || (c =? 133) || (c =? 160) || (c =? 5760)
   || (8192 <=? c) && (c <=? 8202)
   || (c =? 8232) || (c =? 8233) || (c =? 8239) || (c =? 8287)
   || (c =? 12288))%N.

Fixpoint lstrip (s : pystr) : pystr :=
  match s with
  | [] => []
  | c :: s' => if isspace c then lstrip s' else s
  end.

Definition rstrip (s : pystr) : pystr := rev (lstrip (rev s)).

(** [s.strip()]. *)
Definition strip (s : pystr) : pystr := rstrip (lstrip s).

(** [s.startswith(p)]. *)
Fixpoint startswith (p s : pystr) : bool :=
  match p, s with
  | [], _ => true
  | x :: p', y :: s' => N.eqb x y && startswith p' s'
  | _ :: _, [] => false
  end.

(** [needle in hay] for two strings: [needle] occurs in [hay] as a
    contiguous run; the empty string occurs in every string. *)
Fixpoint contains (needle hay : pystr) : bool :=
  startswith needle hay
  || match hay with
     | [] => false
     | _ :: hay' => contains needle hay'
     end.

(** [not s] for a string: true exactly for the empty string. *)
Definition is_falsy (s : pystr) : bool :=
  match s with [] => true | _ => false end.

(** [str.lower] restricted to text whose only cased letters are ASCII: the
    letters A-Z are lowered, every other code point is kept.  CPython's
    [str.lower] computes the same on every string that has no cased letter
    outside ASCII; Devanagari, Tamil and Arabic letters, the scripts of the
    mapping tables, have no case. *)
Definition lower_ascii (s : pystr) : pystr :=
  map (fun c => if ((65 <=? c) && (c <=? 90))%N then (c + 32)%N else c) s.

End PyStr.

Import PyStr.

(* ------------------------------------------------------------------ *)
(** ** Python dictionaries with string keys *)

Module PyDict.

(** The items of a dictionary in insertion order. *)
Definition t : Type := list (pystr * pystr).

(** [d.items()]. *)
Definition items (d : t) : list (pystr * pystr) := d.

(** [d.get(k)]: [Some d[k]] when [k in d]. *)
Fixpoint get (k : pystr) (d : t) : option pystr :=
  match d with
  | [] => None
  | (k', v) :: d' => if eqb k k' then Some v else get k d'
  end.

(** [k in d]. *)
Definition mem (k : pystr) (d : t) : bool :=
  match get k d with Some _ => true | None => false end.

(** [d[k] = v]: an existing key keeps its place and takes the new value, a
    new key goes to the end. *)
Fixpoint set (k v : pystr) (d : t) : t :=
  match d with
  | [] => [(k, v)]
  | (k', v') :: d' =>
      if eqb k k' then (k', v) :: d' else (k', v') :: set k v d'
  end.

(** A dictionary display [{k1: v1, k2: v2, ...}]: the pairs are stored from
    left to right, so a repeated key keeps its first place and its last
    value. *)
Definition display (pairs : list (pystr * pystr)) : t :=
  fold_left (fun d kv => set (fst kv) (snd kv) d) pairs [].

(** [len(d)]. *)
Definition len (d : t) : nat := List.length d.

End PyDict.

(** The first item of an iteration that satisfies the loop's test: what a
    [for ... : if test: return ...] loop returns from. *)
Definition first_item (test : pystr -> pystr -> bool)
  (its : list (pystr * pystr)) : option (pystr * pystr) :=
  find (fun kv => test (fst kv) (snd kv)) its.

(* ------------------------------------------------------------------ *)
(** ** Outcomes of a call *)

(** The exceptions the modelled code can raise. *)
Inductive PyExc : Type :=
| TypeError.

(** A call either returns a value or raises. *)
Inductive Outcome (A : Type) : Type :=
| Returned (a : A)
| Raised (e : PyExc).

Arguments Returned {A} a.
Arguments Raised {A} e.

(* ------------------------------------------------------------------ *)
(** ** The module logger, [logging.getLogger(__name__)] *)

(** One call of [logger.info(msg, **kwargs)]. *)
Record LogCall : Type := mkLogCall {
  msg : string;
  kwargs : list (string * pystr)
}.

(** The state of a standard-library [logging.Logger]:
    - [info_enabled] is [logger.isEnabledFor(logging.INFO)]; it is [false]
      in a process that has not configured logging (the root logger's level
      is WARNING);
    - [handled] are the records passed on to the handlers, oldest first;
    - [calls] lists every call of [logger.info], oldest first, whatever
      became of it (a trace kept for the statements below; the Python object
      has no such field). *)
Record Logger : Type := mkLogger {
  info_enabled : bool;
  handled : list LogCall;
  calls : list LogCall
}.

(** The keyword parameters of [Logger._log]. *)
Definition log_keywords : list string :=
  ["exc_info"; "extra"; "stack_info"; "stacklevel"]%string.

Definition accepted_keyword (k : string) : bool :=
  existsb (String.eqb k) log_keywords.

(** [Logger.info(msg, **kwargs)]:
    [if self.isEnabledFor(INFO): self._log(INFO, msg, args, **kwargs)].
    [_log] takes the keywords of [log_keywords] only, so a call with any
    other keyword raises [TypeError] once the level is enabled. *)
Definition Logger_info (m : string) (kw : list (string * pystr))
  (lg : Logger) : Outcome unit * Logger :=
  let c := mkLogCall m kw in
  if info_enabled lg then
    if forallb (fun kv => accepted_keyword (fst kv)) kw then
      (Returned tt, mkLogger true (handled lg ++ [c]) (calls lg ++ [c]))
    else
      (Raised TypeError, mkLogger true (handled lg) (calls lg ++ [c]))
  else
    (Returned tt, mkLogger false (handled lg) (calls lg ++ [c])).

(** A logger as a fresh process has it. *)
Definition default_logger : Logger := mkLogger false [] [].

(** A logger after [logging.basicConfig(level=logging.INFO)]. *)
Definition info_logger : Logger := mkLogger true [] [].

(* ------------------------------------------------------------------ *)
(** ** The translator *)

(** The attributes of an [AYUSHTranslator]. *)
Record AYUSHTranslator : Type := mkTranslator {
  condition_mapping : PyDict.t;
  system_type_mapping : PyDict.t;
  severity_mapping : PyDict.t
}.

(** What a method of the translator can read and change: the translator
    object and the module's logger. *)
Record Env : Type := mkEnv {
  self_ : AYUSHTranslator;
  logger : Logger
}.

(** A method body: from the state before the call to the outcome and the
    state after it. *)
Definition M (A : Type) : Type := Env -> Outcome A * Env.

Definition ret {A : Type} (a : A) : M A := fun st => (Returned a, st).

Definition bind {A B : Type} (m : M A) (k : A -> M B) : M B :=
  fun st =>
    match m st with
    | (Returned a, st') => k a st'
    | (Raised e, st') => (Raised e, st')
    end.

Notation "m ;; k" := (bind m (fun _ => k))
  (at level 61, right associativity).

(** [logger.info(msg, **kwargs)] as a step of a method. *)
Definition log_info (m : string) (kw : list (string * pystr)) : M unit :=
  fun st =>
    let (o, lg) := Logger_info m kw (logger st) in
    (o, mkEnv (self_ st) lg).

(** The dictionary display of [__init__] for [condition_mapping], pair by
    pair as the source lists them (two keys are listed twice). *)
Definition condition_mapping_display : list (pystr * pystr) :=
    (* Common Ayurvedic conditions (Sanskrit/Hindi) *)
    [ (u "शिरःशूल", u "Headache");
      (u "शीर्षवेदना", u "Head Pain");
      (u "अजीर्ण", u "Indigestion");
      (u "अग्निमांद्य", u "Digestive Weakness");
      (u "ज्वर", u "Fever");
      (u "सन्धिवात", u "Arthritis");
      (u "अस्थिसंधि वेदना", u "Bone and Joint Pain");
      (u "संधिशूल", u "Joint Pain");
      (u "कटिशूल", u "Back Pain");
      (u "कटिवेदना", u "Lower Back Pain");
      (u "अर्श", u "Hemorrhoids");
      (u "पाइल्स", u "Piles");
      (u "कास", u "Cough");
      (u "श्वास", u "Asthma");
      (u "श्वसन रोग", u "Respiratory Disorder");
      (u "नासावेग", u "Allergic Rhinitis");
      (u "नाक बहना", u "Runny Nose");
      (u "अतिसार", u "Diarrhea");
      (u "गुदव्रण", u "Anal Fissure");
      (u "मुंहासे", u "Acne");
      (u "त्वचा रोग", u "Skin Disease");
      (u "खाज", u "Itching");
      (u "दाद", u "Ringworm");
      (u "एक्जिमा", u "Eczema");
      (u "बवासीर", u "Hemorrhoids");
      (u "अनिद्रा", u "Insomnia");
      (u "निद्रानाश", u "Sleep Disorder");
      (u "मानसिक तनाव", u "Mental Stress");
      (u "चिंता", u "Anxiety");
      (u "अवसाद", u "Depression");
      (u "स्मृति हानि", u "Memory Loss");
      (u "मधुमेह", u "Diabetes");
      (u "प्रमेह", u "Diabetes Mellitus");
      (u "रक्तचाप", u "Hypertension");
      (u "उच्च रक्तचाप", u "High Blood Pressure");
      (u "हृदय रोग", u "Heart Disease");
      (u "हृदयाघात", u "Heart Attack");
      (u "स्त्री रोग", u "Gynecological Disorder");
      (u "मासिक धर्म विकार", u "Menstrual Disorder");
      (u "बांझपन", u "Infertility");
      (u "गर्भधारण समस्या", u "Pregnancy Complications");
      (u "बाल रोग", u "Pediatric Disorder");
      (u "बच्चों की बीमारी", u "Childhood Illness");
      (u "वृद्धावस्था रोग", u "Geriatric Disorder");
      (u "बुढ़ापे की बीमारी", u "Age-related Disease");
    (* Siddha medicine conditions *)
      (u "வலி", u "Pain");
      (u "காய்ச்சல்", u "Fever");
      (u "இருமல்", u "Cough");
      (u "மூச்சுத்திணறல்", u "Breathing Difficulty");
      (u "வயிற்றுப்போக்கு", u "Diarrhea");
      (u "கல்லீரல் நோய்", u "Liver Disease");
      (u "சிறுநீர்ப்பை நோய்", u "Bladder Disease");
      (u "நீரிழிவு நோய்", u "Diabetes");
    (* Unani medicine conditions *)
      (u "سرد و بلغم", u "Cold and Phlegm");
      (u "حرارت", u "Heat/Fever");
      (u "سعال", u "Cough");
      (u "زکام", u "Cold");
      (u "اسہال", u "Diarrhea");
      (u "قئ", u "Nausea");
      (u "دموی", u "Bloody");
      (u "سفید", u "White Discharge");
    (* Homeopathy conditions *)
      (u "सिर दर्द", u "Headache");
      (u "पेट दर्द", u "Abdominal Pain");
      (u "बुखार", u "Fever");
      (u "खांसी", u "Cough");
      (u "दस्त", u "Diarrhea");
      (u "एलर्जी", u "Allergy");
      (u "त्वचा रोग", u "Skin Disease");
      (u "अनिद्रा", u "Insomnia");
    (* Additional common conditions *)
      (u "माइग्रेन", u "Migraine");
      (u "टी बी", u "Tuberculosis");
      (u "कैंसर", u "Cancer");
      (u "एड्स", u "AIDS");
      (u "मलेरिया", u "Malaria");
      (u "डेंगू", u "Dengue");
      (u "चिकनगुनिया", u "Chikungunya");
      (u "कोविड", u "COVID-19");
      (u "कोरोना", u "Coronavirus");
    (* English to English (for completeness) *)
      (u "headache", u "Headache");
      (u "fever", u "Fever");
      (u "cough", u "Cough");
      (u "cold", u "Common Cold");
      (u "diarrhea", u "Diarrhea");
      (u "indigestion", u "Indigestion");
      (u "arthritis", u "Arthritis");
      (u "asthma", u "Asthma");
      (u "diabetes", u "Diabetes");
      (u "hypertension", u "Hypertension");
      (u "anxiety", u "Anxiety");
      (u "depression", u "Depression");
      (u "insomnia", u "Insomnia");
      (u "acne", u "Acne");
      (u "eczema", u "Eczema");
      (u "migraine", u "Migraine")].

(** The dictionary display of [__init__] for [system_type_mapping]. *)
Definition system_type_mapping_display : list (pystr * pystr) :=
    [ (u "आयुर्वेद", u "Ayurveda");
      (u "सिद्ध", u "Siddha");
      (u "यूनानी", u "Unani");
      (u "होम्योपैथी", u "Homeopathy");
      (u "ஆயுர்வேதம்", u "Ayurveda");
      (u "சித்த மருத்துவம்", u "Siddha");
      (u "யூனானி மருத்துவம்", u "Unani");
      (u "ஹோமியோபதி", u "Homeopathy")].

(** The dictionary display of [__init__] for [severity_mapping]. *)
Definition severity_mapping_display : list (pystr * pystr) :=
    [ (u "मृदु", u "Mild");
      (u "मध्यम", u "Moderate");
      (u "तीव्र", u "Severe");
      (u "गंभीर", u "Critical");
      (u "हल्का", u "Mild");
      (u "भारी", u "Severe");
      (u "कुपोषण", u "Malnutrition");
      (u "जटिल", u "Complicated")].

(** [AYUSHTranslator()]. *)
Definition AYUSHTranslator_init : AYUSHTranslator :=
  Eval vm_compute in
  mkTranslator (PyDict.display condition_mapping_display)
               (PyDict.display system_type_mapping_display)
               (PyDict.display severity_mapping_display).

Section Translate.

(** [str.lower] of the Python runtime.  The methods are defined, and their
    general properties proved, for whatever function it is. *)
Variable lower : pystr -> pystr.

(** The test of the case-insensitive loop:
    [key.lower() == cleaned.lower()]. *)
Definition same_ignoring_case (cleaned key : pystr) : bool :=
  eqb (lower key) (lower cleaned).

(** The test of the partial-match loop:
    [key.lower() in cleaned.lower() or cleaned.lower() in key.lower()]. *)
Definition partial_match (cleaned key : pystr) : bool :=
  contains (lower key) (lower cleaned) || contains (lower cleaned) (lower key).

(** [AYUSHTranslator.translate_condition]. *)
Definition translate_condition (condition_name : pystr) : M pystr :=
  fun st =>
    let self := self_ st in
    if is_falsy condition_name then ret [] st
    else
      let cleaned_name := strip condition_name in
      match PyDict.get cleaned_name (condition_mapping self) with
      | Some value => ret value st
      | None =>
          match first_item (fun key _ => same_ignoring_case cleaned_name key)
                  (PyDict.items (condition_mapping self)) with
          | Some (_, value) => ret value st
          | None =>
              match first_item (fun key _ => partial_match cleaned_name key)
                      (PyDict.items (condition_mapping self)) with
              | Some (key, value) =>
                  (log_info "Partial match found for condition translation"
                     [("original"%string, condition_name);
                      ("matched"%string, key);
                      ("translated"%string, value)] ;;
                   ret value) st
              | None =>
                  (log_info "No translation found for condition"
                     [("original"%string, condition_name);
                      ("action"%string, u "keeping_original")] ;;
                   ret condition_name) st
              end
          end
      end.

(** [AYUSHTranslator.translate_system_type]. *)
Definition translate_system_type (system_type : pystr) : M pystr :=
  fun st =>
    let self := self_ st in
    if is_falsy system_type then ret [] st
    else
      let cleaned_type := strip system_type in
      match PyDict.get cleaned_type (system_type_mapping self) with
      | Some value => ret value st
      | None =>
          match first_item (fun key _ => same_ignoring_case cleaned_type key)
                  (PyDict.items (system_type_mapping self)) with
          | Some (_, value) => ret value st
          | None => ret system_type st
          end
      end.

(** [AYUSHTranslator.translate_severity]. *)
Definition translate_severity (severity : pystr) : M pystr :=
  fun st =>
    let self := self_ st in
    if is_falsy severity then ret [] st
    else
      let cleaned_severity := strip severity in
      match PyDict.get cleaned_severity (severity_mapping self) with
      | Some value => ret value st
      | None =>
          match first_item (fun key _ => same_ignoring_case cleaned_severity key)
                  (PyDict.items (severity_mapping self)) with
          | Some (_, value) => ret value st
          | None => ret severity st
          end
      end.

End Translate.

(** [AYUSHTranslator.get_translation_stats]: the four counts, in the order of
    the returned dictionary. *)
Definition get_translation_stats (self : AYUSHTranslator)
  : nat * nat * nat * nat :=
  (PyDict.len (condition_mapping self),
   PyDict.len (system_type_mapping self),
   PyDict.len (severity_mapping self),
   PyDict.len (condition_mapping self) + PyDict.len (system_type_mapping self)
   + PyDict.len (severity_mapping self)).

(** [AYUSHTranslator.add_condition_mapping]: the assignment comes first, the
    logging call after it. *)
Definition add_condition_mapping (native_term english_term : pystr) : M unit :=
  fun st =>
    let self := self_ st in
    let st1 :=
      mkEnv (mkTranslator
               (PyDict.set native_term english_term (condition_mapping self))
               (system_type_mapping self) (severity_mapping self))
            (logger st) in
    log_info "Added new condition mapping"
      [("native"%string, native_term); ("english"%string, english_term)] st1.

(** [AYUSHTranslator.add_system_type_mapping]. *)
Definition add_system_type_mapping (native_term english_term : pystr)
  : M unit :=
  fun st =>
    let self := self_ st in
    let st1 :=
      mkEnv (mkTranslator
               (condition_mapping self)
               (PyDict.set native_term english_term (system_type_mapping self))
               (severity_mapping self))
            (logger st) in
    log_info "Added new system type mapping"
      [("native"%string, native_term); ("english"%string, english_term)] st1.

(** [AYUSHTranslator.add_severity_mapping]. *)
Definition add_severity_mapping (native_term english_term : pystr) : M unit :=
  fun st =>
    let self := self_ st in
    let st1 :=
      mkEnv (mkTranslator
               (condition_mapping self) (system_type_mapping self)
               (PyDict.set native_term english_term (severity_mapping self)))
            (logger st) in
    log_info "Added new severity mapping"
      [("native"%string, native_term); ("english"%string, english_term)] st1.

(** The module at import time: [translator = AYUSHTranslator()], with the
    logger in the given state. *)
Definition module_env (lg : Logger) : Env := mkEnv AYUSHTranslator_init lg.

(* ------------------------------------------------------------------ *)
(** ** EMR models ([app/models/emr_models.py]) *)

(** A [datetime]: a calendar date and the second of the day. *)
Record datetime : Type := mkDatetime {
  year : N;
  month : N;
  day : N;
  second_of_day : N
}.

Definition datetime_eqb (a b : datetime) : bool :=
  ((year a =? year b) && (month a =? month b) && (day a =? day b)
   && (second_of_day a =? second_of_day b))%N.

(** A keyword argument the caller may leave out: the field's default (or its
    [default_factory]) is taken when it is [None]. *)
Definition with_default {A : Type} (given : option A) (default : A) : A :=
  match given with
  | Some a => a
  | None => default
  end.

Module EMRPatient.

Record t : Type := mk {
  patient_id : pystr;
  given_name : option pystr;
  family_name : option pystr;
  gender : option pystr;
  birth_date : option datetime;
  address : option pystr;
  phone_number : option pystr;
  created_at : datetime
}.

(** [EMRPatient(patient_id=...)] at time [utcnow], the optional fields left
    out. *)
Definition new (utcnow : datetime) (patient_id : pystr) : t :=
  mk patient_id None None None None None None utcnow.

End EMRPatient.

Module EMRCondition.

Record t : Type := mk {
  condition_id : pystr;
  patient_id : pystr;
  condition_name : pystr;
  icd_code : option pystr;
  tm2_code : pystr;
  system_type : pystr;
  severity : pystr;
  diagnosis_date : datetime;
  practitioner_id : pystr;
  status : pystr;
  notes : option pystr;
  created_at : datetime
}.

(** The default of the field [status]. *)
Definition default_status : pystr := u "active".

(** [EMRCondition(...)] at time [utcnow]: the required fields, then the
    fields that have a default, each given or left out. *)
Definition new (utcnow : datetime)
  (condition_id patient_id condition_name tm2_code system_type severity : pystr)
  (diagnosis_date : datetime) (practitioner_id : pystr)
  (icd_code : option pystr) (status : option pystr) (notes : option pystr)
  (created_at : option datetime) : t :=
  mk condition_id patient_id condition_name icd_code tm2_code system_type
     severity diagnosis_date practitioner_id
     (with_default status default_status) notes
     (with_default created_at utcnow).

End EMRCondition.

Module EMREncounter.

Record t : Type := mk {
  encounter_id : pystr;
  patient_id : pystr;
  encounter_type : pystr;
  encounter_date : datetime;
  practitioner_id : pystr;
  location : option pystr;
  conditions : list pystr;
  created_at : datetime
}.

(** The default of the field [encounter_type]. *)
Definition default_encounter_type : pystr :=
  u "traditional_medicine_consultation".

(** [EMREncounter(...)] at time [utcnow]; [conditions] defaults to a new
    empty list.  (The field [observations], a list of free-form
    dictionaries, is left out of the record.) *)
Definition new (utcnow : datetime)
  (encounter_id patient_id : pystr) (encounter_date : datetime)
  (practitioner_id : pystr)
  (encounter_type : option pystr) (location : option pystr)
  (conditions : option (list pystr)) (created_at : option datetime) : t :=
  mk encounter_id patient_id
     (with_default encounter_type default_encounter_type)
     encounter_date practitioner_id location
     (with_default conditions [])
     (with_default created_at utcnow).

End EMREncounter.

(* ------------------------------------------------------------------ *)
(** ** The cleaning and conversion pipeline *)

(** Modelled from the spec: one input row, seven raw strings (spec 4.2; the
    ingestion service is not among the source files). *)
Record RawRecord : Type := mkRaw {
  raw_patient_id : pystr;
  raw_tm2_code : pystr;
  raw_condition_name : pystr;
  raw_system_type : pystr;
  raw_severity : pystr;
  raw_diagnosis_date : pystr;
  raw_practitioner_id : pystr
}.

(** Modelled from the spec: a row after validation, deduplication and
    normalization (spec 4.2). *)
Record CleanedRecord : Type := mkCleaned {
  c_patient_id : pystr;
  c_tm2_code : pystr;
  c_condition_name : pystr;
  c_system_type : pystr;
  c_severity : pystr;
  c_diagnosis_date : datetime;
  c_practitioner_id : pystr
}.

(** Modelled from the spec: the two counters of the cleaner (spec 4.2). *)
Record CleaningStatistics : Type := mkCleaningStats {
  duplicates_removed : nat;
  invalid_records_removed : nat
}.

Definition is_digit (c : N) : bool := ((48 <=? c) && (c <=? 57))%N.

Definition digit_value (c : N) : N := (c - 48)%N.

Definition is_leap (y : N) : bool :=
  (((y mod 4 =? 0) && negb (y mod 100 =? 0)) || (y mod 400 =? 0))%N.

Definition days_in_month (y m : N) : N :=
  if (m =? 2)%N then (if is_leap y then 29 else 28)%N
  else if ((m =? 4) || (m =? 6) || (m =? 9) || (m =? 11))%N then 30%N
  else 31%N.

(** Modelled from the spec: "diagnosis_date parseable into a calendar date".
    The parser belongs to the ingestion service, which is not among the
    source files; the model reads the ISO form YYYY-MM-DD of the spec's
    scenario and checks that the day exists. *)
Definition parse_date (s : pystr) : option datetime :=
  match strip s with
  | [y1; y2; y3; y4; d1; m1; m2; d2; a1; a2] =>
      if forallb is_digit [y1; y2; y3; y4; m1; m2; a1; a2]
         && (d1 =? 45)%N && (d2 =? 45)%N
      then
        let y := (digit_value y1 * 1000 + digit_value y2 * 100
                  + digit_value y3 * 10 + digit_value y4)%N in
        let m := (digit_value m1 * 10 + digit_value m2)%N in
        let d := (digit_value a1 * 10 + digit_value a2)%N in
        if ((1 <=? m) && (m <=? 12) && (1 <=? d)
            && (d <=? days_in_month y m))%N
        then Some (mkDatetime y m d 0)
        else None
      else None
  | _ => None
  end.

(** Modelled from the spec: a field is blank when nothing is left of it after
    trimming. *)
Definition is_blank (s : pystr) : bool := is_falsy (strip s).

(** Modelled from the spec: the deduplication key of a row (spec 4.2). *)
Definition dedup_key : Type := (pystr * pystr * datetime * pystr)%type.

Definition dedup_key_eqb (a b : dedup_key) : bool :=
  let '(p1, t1, d1, r1) := a in
  let '(p2, t2, d2, r2) := b in
  eqb p1 p2 && eqb t1 t2 && datetime_eqb d1 d2 && eqb r1 r2.

(** Modelled from the spec: what the cleaner has built so far: the keys seen,
    the cleaned rows (oldest first) and the counters. *)
Record CleanAcc : Type := mkCleanAcc {
  seen : list dedup_key;
  cleaned : list CleanedRecord;
  stats : CleaningStatistics
}.

Section Pipeline.

Variable lower : pystr -> pystr.

(** Modelled from the spec: one step of [clean] (spec 4.2; the ingestion
    service that implements it is not among the source files).  In order:
    structural validation (patient_id, tm2_code and condition_name
    non-blank, diagnosis_date parseable), else the row is counted invalid;
    deduplication on (patient_id, tm2_code, diagnosis_date,
    practitioner_id), the first occurrence kept; normalization, which trims
    every string field and calls the translator of the source on
    condition_name, system_type and severity. *)
Definition clean_step (acc : CleanAcc) (r : RawRecord) : M CleanAcc :=
  let st := stats acc in
  match parse_date (raw_diagnosis_date r) with
  | None =>
      ret (mkCleanAcc (seen acc) (cleaned acc)
             (mkCleaningStats (duplicates_removed st)
                (S (invalid_records_removed st))))
  | Some date =>
      if is_blank (raw_patient_id r) || is_blank (raw_tm2_code r)
         || is_blank (raw_condition_name r)
      then
        ret (mkCleanAcc (seen acc) (cleaned acc)
               (mkCleaningStats (duplicates_removed st)
                  (S (invalid_records_removed st))))
      else
        let key := (raw_patient_id r, raw_tm2_code r, date,
                    raw_practitioner_id r) in
        if existsb (dedup_key_eqb key) (seen acc)
        then
          ret (mkCleanAcc (seen acc) (cleaned acc)
                 (mkCleaningStats (S (duplicates_removed st))
                    (invalid_records_removed st)))
        else
          bind (translate_condition lower (strip (raw_condition_name r)))
            (fun name =>
          bind (translate_system_type lower (strip (raw_system_type r)))
            (fun system =>
          bind (translate_severity lower (strip (raw_severity r)))
            (fun sev =>
          ret (mkCleanAcc (seen acc ++ [key])
                 (cleaned acc ++
                    [mkCleaned (strip (raw_patient_id r))
                       (strip (raw_tm2_code r)) name system sev date
                       (strip (raw_practitioner_id r))])
                 st))))
  end.

(** Modelled from the spec: [clean] (spec 4.2), the rows taken in input
    order. *)
Fixpoint clean_from (acc : CleanAcc) (records : list RawRecord) : M CleanAcc :=
  match records with
  | [] => ret acc
  | r :: rest => bind (clean_step acc r) (fun acc' => clean_from acc' rest)
  end.

(** Modelled from the spec: [clean] returns the cleaned rows and the
    counters. *)
Definition clean (records : list RawRecord)
  : M (list CleanedRecord * CleaningStatistics) :=
  bind (clean_from (mkCleanAcc [] [] (mkCleaningStats 0 0)) records)
    (fun acc => ret (cleaned acc, stats acc)).

(** Modelled from the spec: the entities of one converted batch (spec 4.3). *)
Record EMRGraph : Type := mkGraph {
  patients : list EMRPatient.t;
  conditions : list EMRCondition.t;
  encounters : list EMREncounter.t
}.

(** The time of the conversion, and the identifier generators, which the
    spec leaves open. *)
Variable utcnow : datetime.
Variable gen_condition_id : CleanedRecord -> pystr.
Variable gen_encounter_id : pystr -> datetime -> pystr -> pystr.

(** Modelled from the spec: the encounter of a row is the one of its
    (patient_id, diagnosis_date, practitioner_id). *)
Definition same_encounter (r : CleanedRecord) (e : EMREncounter.t) : bool :=
  eqb (EMREncounter.patient_id e) (c_patient_id r)
  && datetime_eqb (EMREncounter.encounter_date e) (c_diagnosis_date r)
  && eqb (EMREncounter.practitioner_id e) (c_practitioner_id r).

(** Modelled from the spec: the encounter list with the condition [cid]
    attached to the encounter of [r], which is created when [r] is the first
    row of its visit. *)
Fixpoint attach (r : CleanedRecord) (cid : pystr)
  (es : list EMREncounter.t) : list EMREncounter.t :=
  match es with
  | [] =>
      [EMREncounter.new utcnow
         (gen_encounter_id (c_patient_id r) (c_diagnosis_date r)
            (c_practitioner_id r))
         (c_patient_id r) (c_diagnosis_date r) (c_practitioner_id r)
         None None (Some [cid]) None]
  | e :: es' =>
      if same_encounter r e
      then EMREncounter.mk (EMREncounter.encounter_id e)
             (EMREncounter.patient_id e) (EMREncounter.encounter_type e)
             (EMREncounter.encounter_date e) (EMREncounter.practitioner_id e)
             (EMREncounter.location e)
             (EMREncounter.conditions e ++ [cid])
             (EMREncounter.created_at e) :: es'
      else e :: attach r cid es'
  end.

(** Modelled from the spec: one step of [convert] (spec 4.3; the graph
    builder is not among the source files): the patient is resolved by
    patient_id or created, one condition is created for the row, and its id
    is appended to the encounter of (patient_id, diagnosis_date,
    practitioner_id).  The entities are built with the constructors of
    [emr_models.py]. *)
Definition convert_step (g : EMRGraph) (r : CleanedRecord) : EMRGraph :=
  let cid := gen_condition_id r in
  mkGraph
    (if existsb (fun p => eqb (EMRPatient.patient_id p) (c_patient_id r))
          (patients g)
     then patients g
     else patients g ++ [EMRPatient.new utcnow (c_patient_id r)])
    (conditions g ++
       [EMRCondition.new utcnow cid (c_patient_id r) (c_condition_name r)
          (c_tm2_code r) (c_system_type r) (c_severity r)
          (c_diagnosis_date r) (c_practitioner_id r) None None None None])
    (attach r cid (encounters g)).

(** Modelled from the spec: [convert] (spec 4.3). *)
Definition convert (records : list CleanedRecord) : EMRGraph :=
  fold_left convert_step records (mkGraph [] [] []).

(** Modelled from the spec: the pipeline of one batch, cleaning and
    translation first, conversion after (spec 2 and 4.5). *)
Definition pipeline (records : list RawRecord)
  : M (EMRGraph * CleaningStatistics) :=
  bind (clean records) (fun cs => ret (convert (fst cs), snd cs)).

End Pipeline.

(** The row of the spec's end-to-end scenario. *)
Definition scenario_row : RawRecord :=
  mkRaw (u "PAT001") (u "TM2.A01.01") (u "अनिद्रा") (u "आयुर्वेद")
        (u "मध्यम") (u "2024-01-15") (u "DOC123").

(* ------------------------------------------------------------------ *)
(** ** What a translate call is expected to log *)

(** Some key of the table equals the cleaned input when case is ignored. *)
Definition has_case_insensitive_key (lower : pystr -> pystr)
  (cleaned : pystr) (d : PyDict.t) : bool :=
  existsb (fun kv => same_ignoring_case lower cleaned (fst kv)) (PyDict.items d).

(** Some key of the table is contained in the cleaned input or contains it,
    case ignored. *)
Definition has_partial_key (lower : pystr -> pystr)
  (cleaned : pystr) (d : PyDict.t) : bool :=
  existsb (fun kv => partial_match lower cleaned (fst kv)) (PyDict.items d).

(** The input of a translate call is answered by the early return for the
    empty string, by the exact tier or by the case-insensitive tier. *)
Definition answered_above_partial (lower : pystr -> pystr)
  (d : PyDict.t) (s : pystr) : bool :=
  is_falsy s || PyDict.mem (strip s) d
  || has_case_insensitive_key lower (strip s) d.

(** The state a call of [translate_condition] leaves behind when it logs:
    the tables as they were, one more call on the logger's trace. *)
Definition after_log_call (st : Env) (c : LogCall) : Env :=
  mkEnv (self_ st)
        (mkLogger (info_enabled (logger st)) (handled (logger st))
                  (calls (logger st) ++ [c])).

(* ------------------------------------------------------------------ *)
(** ** The module-level translator and its convenience functions *)

(** [translate_condition_name], [translate_system_type] and
    [translate_severity] of the module: each hands its argument to the same
    method of the global [translator], which is the translator of the
    state. *)
Definition translate_condition_name (lower : pystr -> pystr)
  (condition_name : pystr) : M pystr :=
  translate_condition lower condition_name.

Definition module_translate_system_type (lower : pystr -> pystr)
  (system_type : pystr) : M pystr :=
  translate_system_type lower system_type.

Definition module_translate_severity (lower : pystr -> pystr)
  (severity : pystr) : M pystr :=
  translate_severity lower severity.

(* ------------------------------------------------------------------ *)
(** ** Well-formed tables *)

(** No key of the list occurs twice: what every Python dictionary
    satisfies. *)
Fixpoint unique_keysb (d : PyDict.t) : bool :=
  match d with
  | [] => true
  | (k, _) :: d' => negb (PyDict.mem k d') && unique_keysb d'
  end.

Definition unique_keys (d : PyDict.t) : Prop := unique_keysb d = true.

(** The three tables of a translator are dictionaries. *)
Definition tables_well_formed (t : AYUSHTranslator) : Prop :=
  unique_keys (condition_mapping t)
  /\ unique_keys (system_type_mapping t)
  /\ unique_keys (severity_mapping t).

(** The keys of a table, in iteration order. *)
Definition keys (d : PyDict.t) : list pystr := map fst (PyDict.items d).

(** The values of a table, in iteration order. *)
Definition values (d : PyDict.t) : list pystr := map snd (PyDict.items d).

(** A value of the table that the first two tiers do not translate any
    further: it is non-empty, its trimmed form is no key and equals no key
    with case ignored. *)
Definition value_is_final (lower : pystr -> pystr) (d : PyDict.t)
  (v : pystr) : bool :=
  negb (is_falsy v) && negb (PyDict.mem (strip v) d)
  && negb (has_case_insensitive_key lower (strip v) d).

(* ------------------------------------------------------------------ *)
(** ** A client of the module *)

(** The calls a client can make: the three convenience functions of the
    module and the three add methods of the global [translator]. *)
Inductive Call : Type :=
| CallTranslateConditionName (condition_name : pystr)
| CallTranslateSystemType (system_type : pystr)
| CallTranslateSeverity (severity : pystr)
| CallAddConditionMapping (native_term english_term : pystr)
| CallAddSystemTypeMapping (native_term english_term : pystr)
| CallAddSeverityMapping (native_term english_term : pystr).

(** The state one call leaves behind, whether it returned or raised. *)
Definition run_call (lower : pystr -> pystr) (c : Call) (st : Env) : Env :=
  match c with
  | CallTranslateConditionName s => snd (translate_condition_name lower s st)
  | CallTranslateSystemType s => snd (module_translate_system_type lower s st)
  | CallTranslateSeverity s => snd (module_translate_severity lower s st)
  | CallAddConditionMapping n e => snd (add_condition_mapping n e st)
  | CallAddSystemTypeMapping n e => snd (add_system_type_mapping n e st)
  | CallAddSeverityMapping n e => snd (add_severity_mapping n e st)
  end.

(** The state after a sequence of calls, made one after the other by a
    client that goes on after a call that raised. *)
Definition run_calls (lower : pystr -> pystr) (cs : list Call) (st : Env)
  : Env :=
  fold_left (fun st c => run_call lower c st) cs st.

(* ------------------------------------------------------------------ *)
(** ** The upload endpoint ([app/api/endpoints.py]) *)

Module Endpoints.

(** The exceptions the endpoint meets.  Each class derives from
    [Exception]; [HTTPException] (FastAPI's) does not derive from
    [ValueError]. *)
Inductive Exc : Type :=
| HTTPException (status_code : N) (detail : string)
| NameError (name : string)
| AttributeError (message : string)
| ValueError (message : string)
| OtherException (message : string).

Inductive Result (A : Type) : Type :=
| Return (a : A)
| Raise (e : Exc).

Arguments Return {A} a.
Arguments Raise {A} e.

(** The names the module binds at its top level: its imports, in the order
    of the source, then its assignments and its functions.  No statement of
    the module imports [io], and [io] is no builtin. *)
Definition module_globals : list string :=
  ["time"; "datetime"; "Dict"; "Any"; "uuid4";
   "APIRouter"; "Depends"; "File"; "UploadFile"; "HTTPException"; "status";
   "JSONResponse"; "get_settings";
   "get_logger"; "RequestIDContext"; "HealthcareOperationContext";
   "get_mongo_service"; "get_openmrs_client";
   "MongoService"; "OpenMRSRestClient"; "TM2IngestionService";
   "ProcessingResult"; "SystemStatus"; "ErrorResponse";
   "HealthCheckResponse"; "ProcessingStatus"; "ServiceStatus";
   "ComponentHealth"; "ServiceStatistics"; "DatabaseStatistics";
   "OpenMRSStatistics";
   "router"; "settings"; "logger"; "SERVICE_START_TIME";
   "get_ingestion_service"; "trigger_ingestion"; "get_system_status";
   "health_check"; "get_data_cleanup_stats"; "preview_emr_conversion"]%string.

(** The local names of [trigger_ingestion] at the call of
    [process_tm2_file]. *)
Definition trigger_ingestion_locals : list string :=
  ["file"; "ingestion_service"; "request_id"; "file_content"]%string.

(** Reading the name [name] inside [trigger_ingestion]: a local, else a
    global of the module, else [NameError]. *)
Definition read_name (name : string) : Result unit :=
  if existsb (String.eqb name) trigger_ingestion_locals
     || existsb (String.eqb name) module_globals
  then Return tt
  else Raise (NameError name).

(** [s.endswith(suffix)]. *)
Definition endswith (suffix s : pystr) : bool :=
  startswith (rev suffix) (rev s).

Section TriggerIngestion.

Variable lower : pystr -> pystr.

(** What [process_tm2_file] returns, and what the endpoint makes of it. *)
Variable Processed : Type.
Variable Response : Type.
Variable process_tm2_file : list N -> pystr -> Result Processed.
Variable to_processing_result : Processed -> Response.

(** The body of the [try] block of [trigger_ingestion], for an upload with
    the given [filename] (which an upload may lack) and content.  The
    arguments of [process_tm2_file] are evaluated before the call, the first
    being [io.BytesIO(file_content)].  The logging calls and the reads of
    the upload are taken to return, and the context manager around the
    statement to pass every exception on. *)
Definition try_block (filename : option pystr) (file_content : list N)
  : Result Response :=
  match filename with
  | None =>
      Raise (AttributeError "'NoneType' object has no attribute 'lower'")
  | Some name =>
      if negb (endswith (u ".csv") (lower name))
      then Raise (HTTPException 400 "Only CSV files are supported")
      else
        match read_name "io" with
        | Raise e => Raise e
        | Return _ =>
            match process_tm2_file file_content name with
            | Raise e => Raise e
            | Return result => Return (to_processing_result result)
            end
        end
  end.

(** [trigger_ingestion]: the [try] block with its two handlers, in their
    order: [except ValueError as e] answers 400 with [str(e)], the message
    of the error; [except Exception] answers 500. *)
Definition trigger_ingestion (filename : option pystr)
  (file_content : list N) : Result Response :=
  match try_block filename file_content with
  | Return response => Return response
  | Raise (ValueError message) => Raise (HTTPException 400 message)
  | Raise _ => Raise (HTTPException 500 "Internal server error")
  end.

End TriggerIngestion.

End Endpoints.

(* ------------------------------------------------------------------ *)
(** ** Proof steps *)

(** Unfolds a translate call down to its decisions. *)
Ltac unfold_translate :=
  unfold translate_condition, translate_system_type, translate_severity,
    bind, ret, log_info, Logger_info.

(** Splits a translate call along its decisions, in the order the code
    takes them. *)
Ltac by_tier :=
  repeat match goal with
    | |- context [if is_falsy ?s then _ else _] =>
        destruct (is_falsy s) eqn:?
    | |- context [match PyDict.get ?k ?d with _ => _ end] =>
        destruct (PyDict.get k d) eqn:?
    | |- context [match first_item ?t ?d with _ => _ end] =>
        let k := fresh "key" in let v := fresh "value" in
        destruct (first_item t d) as [[k v]|] eqn:?
    | |- context [if info_enabled ?l then _ else _] =>
        destruct (info_enabled l) eqn:?
    end; simpl.

(* ------------------------------------------------------------------ *)
(** * Properties *)

(** ** Strings and dictionaries *)

Example u_decodes_devanagari :
  u "ज्वर" = [2332; 2381; 2357; 2352]%N.
Proof. reflexivity. Qed.

Example strip_example :
  strip (u "  chronic headache ") = u "chronic headache".
Proof. reflexivity. Qed.

Example display_keeps_first_place_last_value :
  PyDict.display [(u "a", u "1"); (u "b", u "2"); (u "a", u "3")]
  = [(u "a", u "3"); (u "b", u "2")].
Proof. reflexivity. Qed.

Example translation_stats_of_init :
  get_translation_stats AYUSHTranslator_init = (92, 8, 8, 108).
Proof. reflexivity. Qed.

Lemma eqb_eq (a b : pystr) : eqb a b = true <-> a = b.
Proof.
  revert b; induction a as [|x a IH]; intros [|y b]; simpl;
    try (split; [discriminate | congruence]); try tauto.
  rewrite andb_true_iff, N.eqb_eq, IH.
  split; [intros [-> ->]; reflexivity | intros H; inversion H; auto].
Qed.

Lemma eqb_refl (a : pystr) : eqb a a = true.
Proof. apply eqb_eq; reflexivity. Qed.

Lemma eqb_neq (a b : pystr) : a <> b -> eqb a b = false.
Proof.
  intros H; destruct (eqb a b) eqn:E; [|reflexivity].
  apply eqb_eq in E; contradiction.
Qed.

Lemma get_set_same (k v : pystr) (d : PyDict.t) :
  PyDict.get k (PyDict.set k v d) = Some v.
Proof.
  induction d as [|[k0 v0] d IH]; simpl.
  - rewrite eqb_refl; reflexivity.
  - destruct (eqb k k0) eqn:E; simpl; rewrite E; auto.
Qed.

Lemma get_set_other (k k' v : pystr) (d : PyDict.t) :
  k' <> k -> PyDict.get k' (PyDict.set k v d) = PyDict.get k' d.
Proof.
  intros Hne; induction d as [|[k0 v0] d IH]; simpl.
  - rewrite (eqb_neq Hne); reflexivity.
  - destruct (eqb k k0) eqn:E; simpl.
    + apply eqb_eq in E; subst k0. rewrite (eqb_neq Hne); reflexivity.
    + destruct (eqb k' k0); auto.
Qed.

(** Assignment keeps every other item, in its place. *)
Lemma set_keeps_other_items (k v : pystr) (d : PyDict.t) :
  filter (fun kv => negb (eqb k (fst kv))) (PyDict.items (PyDict.set k v d))
  = filter (fun kv => negb (eqb k (fst kv))) (PyDict.items d).
Proof.
  unfold PyDict.items.
  induction d as [|[k0 v0] d IH]; simpl.
  - rewrite eqb_refl; reflexivity.
  - destruct (eqb k k0) eqn:E; simpl; rewrite E; simpl; congruence.
Qed.

(** The item a loop returns from is the first, in iteration order, that
    passes the loop's test. *)
Lemma first_item_split (test : pystr -> pystr -> bool)
  (before after : list (pystr * pystr)) (k v : pystr) :
  forallb (fun kv => negb (test (fst kv) (snd kv))) before = true ->
  test k v = true ->
  first_item test (before ++ (k, v) :: after) = Some (k, v).
Proof.
  unfold first_item.
  induction before as [|[k0 v0] before IH]; simpl; intros Hb Ht.
  - rewrite Ht; reflexivity.
  - apply andb_true_iff in Hb as [H0 Hb].
    apply negb_true_iff in H0; rewrite H0; auto.
Qed.

Lemma first_item_none (test : pystr -> pystr -> bool)
  (its : list (pystr * pystr)) :
  first_item test its = None
  <-> existsb (fun kv => test (fst kv) (snd kv)) its = false.
Proof.
  unfold first_item; induction its as [|kv its IH]; simpl; [tauto|].
  destruct (test (fst kv) (snd kv)); simpl; [split; discriminate | exact IH].
Qed.

Lemma first_item_some (test : pystr -> pystr -> bool)
  (its : list (pystr * pystr)) (kv : pystr * pystr) :
  first_item test its = Some kv ->
  existsb (fun kv => test (fst kv) (snd kv)) its = true.
Proof.
  unfold first_item; induction its as [|kv0 its IH]; simpl; [discriminate|].
  destruct (test (fst kv0) (snd kv0)); simpl; auto.
Qed.

Lemma get_In (k v : pystr) (d : PyDict.t) :
  PyDict.get k d = Some v -> In (k, v) (PyDict.items d).
Proof.
  unfold PyDict.items.
  induction d as [|[k0 v0] d IH]; simpl; [discriminate|].
  destruct (eqb k k0) eqn:E; [|auto].
  apply eqb_eq in E; subst k0; intros H; inversion H; auto.
Qed.

(** When some item passes the loop's test, the iteration splits at the
    first one that does. *)
Lemma first_item_exists (test : pystr -> pystr -> bool)
  (its : list (pystr * pystr)) :
  existsb (fun kv => test (fst kv) (snd kv)) its = true ->
  exists before k v after,
    its = before ++ (k, v) :: after
    /\ forallb (fun kv => negb (test (fst kv) (snd kv))) before = true
    /\ test k v = true.
Proof.
  induction its as [|[k0 v0] its IH]; simpl; [discriminate|].
  destruct (test k0 v0) eqn:E; simpl.
  - intros _; exists [], k0, v0, its; auto.
  - intros H; destruct (IH H) as (before & k & v & after & -> & Hb & Hk).
    exists ((k0, v0) :: before), k, v, after; simpl; rewrite E; auto.
Qed.

(* ------------------------------------------------------------------ *)
(** ** Translation *)

(** C10. The three translate operations only read the translator: after a
    call of [translate_condition], [translate_system_type] or
    [translate_severity], on any input and whether it returned or raised,
    the translator object (its three mapping tables) is what it was before
    the call. *)
Theorem C10_translate_leaves_tables_unchanged :
  forall (lower : pystr -> pystr) (s : pystr) (st : Env),
    self_ (snd (translate_condition lower s st)) = self_ st
    /\ self_ (snd (translate_system_type lower s st)) = self_ st
    /\ self_ (snd (translate_severity lower s st)) = self_ st.
Proof.
  intros lower s st; repeat split; unfold_translate; by_tier; reflexivity.
Qed.

(** C2, as amended.  On the empty string each of the three translate
    operations returns the empty string; the call does not raise, makes no
    logging call and changes nothing. *)
Theorem C2_empty_input_returns_empty :
  forall (lower : pystr -> pystr) (st : Env),
    translate_condition lower [] st = (Returned [], st)
    /\ translate_system_type lower [] st = (Returned [], st)
    /\ translate_severity lower [] st = (Returned [], st).
Proof. intros lower st; repeat split; reflexivity. Qed.

(** C2, counterexample.  Two spaces are a blank input, and none of the three
    operations returns the empty string on it: [translate_system_type] and
    [translate_severity] return the two spaces, and [translate_condition]
    does not return the empty string either. *)
Lemma C2_blank_input_counterexample :
  is_blank (u "  ") = true
  /\ fst (translate_system_type lower_ascii (u "  ") (module_env default_logger))
     = Returned (u "  ")
  /\ fst (translate_severity lower_ascii (u "  ") (module_env default_logger))
     = Returned (u "  ")
  /\ fst (translate_condition lower_ascii (u "  ") (module_env default_logger))
     <> Returned []
  /\ u "  " <> [].
Proof.
  repeat split; try reflexivity; vm_compute; discriminate.
Qed.

(** C3. [translate_system_type] and [translate_severity] have no partial
    tier: whenever the cleaned input is not a key of the table and no key
    equals it with case ignored, the call returns the original input,
    untouched, and leaves the state as it was, whether or not the input
    contains a key or a key contains the input. *)
Theorem C3_no_partial_tier_for_system_type_and_severity :
  forall (lower : pystr -> pystr) (s : pystr) (st : Env),
    (PyDict.mem (strip s) (system_type_mapping (self_ st)) = false ->
     has_case_insensitive_key lower (strip s) (system_type_mapping (self_ st))
       = false ->
     translate_system_type lower s st = (Returned s, st))
    /\
    (PyDict.mem (strip s) (severity_mapping (self_ st)) = false ->
     has_case_insensitive_key lower (strip s) (severity_mapping (self_ st))
       = false ->
     translate_severity lower s st = (Returned s, st)).
Proof.
  intros lower s st; split; intros Hmem Hci;
    unfold PyDict.mem in Hmem; unfold has_case_insensitive_key in Hci;
    unfold_translate.
  - destruct s as [|c s']; [reflexivity|]; simpl is_falsy; cbv iota.
    destruct (PyDict.get _ _); [discriminate|].
    apply (proj2 (first_item_none (fun key _ => same_ignoring_case lower _ key) _))
      in Hci.
    rewrite Hci; reflexivity.
  - destruct s as [|c s']; [reflexivity|]; simpl is_falsy; cbv iota.
    destruct (PyDict.get _ _); [discriminate|].
    apply (proj2 (first_item_none (fun key _ => same_ignoring_case lower _ key) _))
      in Hci.
    rewrite Hci; reflexivity.
Qed.

(** C3, an instance.  "आयुर्वेद चिकित्सा" contains the system-type key
    "आयुर्वेद" and "அதி तीव्र" contains the severity key "तीव्र"; both come
    back as they were given. *)
Lemma C3_witness :
  contains (u "आयुर्वेद") (u "आयुर्वेद चिकित्सा") = true
  /\ translate_system_type lower_ascii (u "आयुर्वेद चिकित्सा")
       (module_env info_logger)
     = (Returned (u "आयुर्वेद चिकित्सा"), module_env info_logger)
  /\ contains (u "तीव्र") (u "அதி तीव्र") = true
  /\ translate_severity lower_ascii (u "அதி तीव्र") (module_env info_logger)
     = (Returned (u "அதி तीव्र"), module_env info_logger).
Proof.
  split; [reflexivity|]. split.
  - apply (proj1 (C3_no_partial_tier_for_system_type_and_severity
                    lower_ascii (u "आयुर्वेद चिकित्सा") (module_env info_logger)));
      vm_compute; reflexivity.
  - split; [reflexivity|].
    apply (proj2 (C3_no_partial_tier_for_system_type_and_severity
                    lower_ascii (u "அதி तीव्र") (module_env info_logger)));
      vm_compute; reflexivity.
Defined.

(** C4, as amended.  With the logger at its default level,
    [translate_condition "chronic headache"] on the shipped table returns
    "Headache", found by the partial-match loop at the key "headache".  In
    general, for a non-blank input whose cleaned form is no key of the table
    and equals no key with case ignored: when [k] is the first key in
    table order that is contained in the cleaned input or contains it (case
    ignored), the partial-match loop stops at [k], logs the match, and, the
    logger not being enabled for INFO, the call returns the value of [k].
    And when such an input contains a key of the table (case ignored),
    there is such a first key, and the call returns its value. *)
Theorem C4_partial_match_returns_first_matching_key :
  translate_condition lower_ascii (u "chronic headache")
    (module_env default_logger)
  = (Returned (u "Headache"),
     after_log_call (module_env default_logger)
       (mkLogCall "Partial match found for condition translation"
          [("original"%string, u "chronic headache");
           ("matched"%string, u "headache");
           ("translated"%string, u "Headache")]))
  /\
  (forall (lower : pystr -> pystr) (s : pystr) (st : Env)
          (before after : list (pystr * pystr)) (k v : pystr),
    strip s <> [] ->
    PyDict.mem (strip s) (condition_mapping (self_ st)) = false ->
    has_case_insensitive_key lower (strip s) (condition_mapping (self_ st))
      = false ->
    PyDict.items (condition_mapping (self_ st)) = before ++ (k, v) :: after ->
    forallb (fun kv => negb (partial_match lower (strip s) (fst kv))) before
      = true ->
    partial_match lower (strip s) k = true ->
    info_enabled (logger st) = false ->
    translate_condition lower s st
    = (Returned v,
       after_log_call st
         (mkLogCall "Partial match found for condition translation"
            [("original"%string, s); ("matched"%string, k);
             ("translated"%string, v)])))
  /\
  (forall (lower : pystr -> pystr) (s : pystr) (st : Env) (known : pystr),
    strip s <> [] ->
    PyDict.mem (strip s) (condition_mapping (self_ st)) = false ->
    has_case_insensitive_key lower (strip s) (condition_mapping (self_ st))
      = false ->
    PyDict.mem known (condition_mapping (self_ st)) = true ->
    contains (lower known) (lower (strip s)) = true ->
    info_enabled (logger st) = false ->
    exists (before after : list (pystr * pystr)) (k v : pystr),
      PyDict.items (condition_mapping (self_ st)) = before ++ (k, v) :: after
      /\ forallb (fun kv => negb (partial_match lower (strip s) (fst kv)))
           before = true
      /\ partial_match lower (strip s) k = true
      /\ translate_condition lower s st
         = (Returned v,
            after_log_call st
              (mkLogCall "Partial match found for condition translation"
                 [("original"%string, s); ("matched"%string, k);
                  ("translated"%string, v)]))).
Proof.
  assert (General :
    forall (lower : pystr -> pystr) (s : pystr) (st : Env)
           (before after : list (pystr * pystr)) (k v : pystr),
      strip s <> [] ->
      PyDict.mem (strip s) (condition_mapping (self_ st)) = false ->
      has_case_insensitive_key lower (strip s) (condition_mapping (self_ st))
        = false ->
      PyDict.items (condition_mapping (self_ st)) = before ++ (k, v) :: after ->
      forallb (fun kv => negb (partial_match lower (strip s) (fst kv))) before
        = true ->
      partial_match lower (strip s) k = true ->
      info_enabled (logger st) = false ->
      translate_condition lower s st
      = (Returned v,
         after_log_call st
           (mkLogCall "Partial match found for condition translation"
              [("original"%string, s); ("matched"%string, k);
               ("translated"%string, v)]))).
  { intros lower s st before after k v Hs Hmem Hci Hitems Hbefore Hk Hlog.
    unfold PyDict.mem in Hmem; unfold has_case_insensitive_key in Hci.
    unfold translate_condition.
    destruct s as [|c s']; [exfalso; apply Hs; reflexivity|];
      simpl is_falsy; cbv iota.
    destruct (PyDict.get _ _); [discriminate|].
    apply (proj2 (first_item_none
                    (fun key _ => same_ignoring_case lower _ key) _)) in Hci.
    rewrite Hci, Hitems.
    rewrite (first_item_split
               (fun key _ => partial_match lower (strip (c :: s')) key)
               before after k v Hbefore Hk).
    unfold bind, ret, log_info, Logger_info, after_log_call.
    rewrite Hlog; reflexivity. }
  refine (conj _ (conj General _)); [vm_compute; reflexivity|].
  intros lower s st known Hs Hmem Hci Hknown Hin Hlog.
  assert (Hex : existsb (fun kv => partial_match lower (strip s) (fst kv))
                  (PyDict.items (condition_mapping (self_ st))) = true).
  { unfold PyDict.mem in Hknown.
    destruct (PyDict.get known (condition_mapping (self_ st))) as [v'|] eqn:Eg;
      [|discriminate].
    apply existsb_exists; exists (known, v'); split; [apply get_In, Eg|].
    unfold partial_match; simpl; rewrite Hin; reflexivity. }
  destruct (first_item_exists (fun key _ => partial_match lower (strip s) key)
              _ Hex) as (before & k & v & after & Hitems & Hbefore & Hk).
  exists before, after, k, v.
  refine (conj Hitems (conj Hbefore (conj Hk _))).
  apply (General lower s st before after k v); assumption.
Qed.

(** C4, an instance: the sample row "Chronic Insomnia" of the preview
    endpoint stops at the key "insomnia", the 89th of the table. *)
Lemma C4_witness :
  translate_condition lower_ascii (u "Chronic Insomnia")
    (module_env default_logger)
  = (Returned (u "Insomnia"),
     after_log_call (module_env default_logger)
       (mkLogCall "Partial match found for condition translation"
          [("original"%string, u "Chronic Insomnia");
           ("matched"%string, u "insomnia");
           ("translated"%string, u "Insomnia")])).
Proof.
  apply (proj1 (proj2 C4_partial_match_returns_first_matching_key)
           lower_ascii (u "Chronic Insomnia") (module_env default_logger)
           (firstn 88 (condition_mapping AYUSHTranslator_init))
           (skipn 89 (condition_mapping AYUSHTranslator_init))
           (u "insomnia") (u "Insomnia"));
    vm_compute; (reflexivity || discriminate).
Defined.

(** C4, counterexample.  "cold fever" is not a key and equals no key with
    case ignored; it contains the key "cold", whose value is "Common Cold";
    the call returns "Fever", the value of "fever", which stands before
    "cold" in the table. *)
Lemma C4_contained_key_counterexample :
  is_blank (u "cold fever") = false
  /\ PyDict.mem (strip (u "cold fever")) (condition_mapping AYUSHTranslator_init)
     = false
  /\ has_case_insensitive_key lower_ascii (strip (u "cold fever"))
       (condition_mapping AYUSHTranslator_init) = false
  /\ PyDict.get (u "cold") (condition_mapping AYUSHTranslator_init)
     = Some (u "Common Cold")
  /\ contains (lower_ascii (u "cold")) (lower_ascii (strip (u "cold fever")))
     = true
  /\ fst (translate_condition lower_ascii (u "cold fever")
            (module_env default_logger))
     = Returned (u "Fever")
  /\ fst (translate_condition lower_ascii (u "cold fever")
            (module_env default_logger))
     <> Returned (u "Common Cold").
Proof.
  repeat split; try (vm_compute; reflexivity).
  vm_compute; discriminate.
Qed.

(** A non-empty input whose cleaned form is a key of the condition table is
    answered by the exact tier: the value of the key is returned and nothing
    else happens. *)
Lemma translate_condition_exact (lower : pystr -> pystr) (s v : pystr)
  (st : Env) :
  s <> [] ->
  PyDict.get (strip s) (condition_mapping (self_ st)) = Some v ->
  translate_condition lower s st = (Returned v, st).
Proof.
  intros Hs Hget; unfold translate_condition.
  destruct s; [congruence|]; simpl is_falsy; cbv iota.
  rewrite Hget; reflexivity.
Qed.

Lemma translate_system_type_exact (lower : pystr -> pystr) (s v : pystr)
  (st : Env) :
  s <> [] ->
  PyDict.get (strip s) (system_type_mapping (self_ st)) = Some v ->
  translate_system_type lower s st = (Returned v, st).
Proof.
  intros Hs Hget; unfold translate_system_type.
  destruct s; [congruence|]; simpl is_falsy; cbv iota.
  rewrite Hget; reflexivity.
Qed.

Lemma translate_severity_exact (lower : pystr -> pystr) (s v : pystr)
  (st : Env) :
  s <> [] ->
  PyDict.get (strip s) (severity_mapping (self_ st)) = Some v ->
  translate_severity lower s st = (Returned v, st).
Proof.
  intros Hs Hget; unfold translate_severity.
  destruct s; [congruence|]; simpl is_falsy; cbv iota.
  rewrite Hget; reflexivity.
Qed.

(** A translate call leaves the translator and the level of the logger as
    they were. *)
Lemma translate_keeps_tables_and_level (lower : pystr -> pystr) (s : pystr)
  (st : Env) :
  (self_ (snd (translate_condition lower s st)) = self_ st
   /\ info_enabled (logger (snd (translate_condition lower s st)))
      = info_enabled (logger st))
  /\ snd (translate_system_type lower s st) = st
  /\ snd (translate_severity lower s st) = st.
Proof.
  repeat split; unfold_translate; by_tier; auto.
Qed.

(** The outcome of a translate call depends on the input, the tables and the
    level of the logger only. *)
Lemma translate_outcome_depends_on (lower : pystr -> pystr) (s : pystr)
  (st1 st2 : Env) :
  self_ st1 = self_ st2 ->
  info_enabled (logger st1) = info_enabled (logger st2) ->
  fst (translate_condition lower s st1) = fst (translate_condition lower s st2)
  /\ fst (translate_system_type lower s st1)
     = fst (translate_system_type lower s st2)
  /\ fst (translate_severity lower s st1)
     = fst (translate_severity lower s st2).
Proof.
  intros Hself Hlevel; unfold_translate; rewrite Hself, Hlevel.
  repeat split; by_tier; reflexivity.
Qed.

(** With the same input and the same tables the outcome of a translate call
    is fixed by the level of the logger: two calls have the same outcome
    when the logger has the same level, whatever it has logged before; with
    any two loggers they return the same value unless one of them raises;
    [translate_system_type] and [translate_severity] have the same outcome
    with any two loggers; and a call repeated right after itself has the
    outcome of the first. *)
Lemma translate_outcome_is_fixed_by_tables_and_level :
  forall (lower : pystr -> pystr),
    (forall lg : Logger,
        translate_condition lower (u "ज्वर") (module_env lg)
        = (Returned (u "Fever"), module_env lg))
    /\ (forall st : Env,
           fst (translate_condition lower [] st) = Returned []
           /\ fst (translate_system_type lower [] st) = Returned []
           /\ fst (translate_severity lower [] st) = Returned [])
    /\ (forall (s : pystr) (t : AYUSHTranslator) (b : bool)
               (h1 c1 h2 c2 : list LogCall),
           fst (translate_condition lower s (mkEnv t (mkLogger b h1 c1)))
           = fst (translate_condition lower s (mkEnv t (mkLogger b h2 c2))))
    /\ (forall (s : pystr) (t : AYUSHTranslator) (lg1 lg2 : Logger),
           fst (translate_condition lower s (mkEnv t lg1))
           = fst (translate_condition lower s (mkEnv t lg2))
           \/ fst (translate_condition lower s (mkEnv t lg1)) = Raised TypeError
           \/ fst (translate_condition lower s (mkEnv t lg2)) = Raised TypeError)
    /\ (forall (s : pystr) (t : AYUSHTranslator) (lg1 lg2 : Logger),
           fst (translate_system_type lower s (mkEnv t lg1))
           = fst (translate_system_type lower s (mkEnv t lg2))
           /\ fst (translate_severity lower s (mkEnv t lg1))
              = fst (translate_severity lower s (mkEnv t lg2)))
    /\ (forall (s : pystr) (st : Env),
           fst (translate_condition lower s
                  (snd (translate_condition lower s st)))
           = fst (translate_condition lower s st)
           /\ fst (translate_system_type lower s
                     (snd (translate_system_type lower s st)))
              = fst (translate_system_type lower s st)
           /\ fst (translate_severity lower s
                     (snd (translate_severity lower s st)))
              = fst (translate_severity lower s st)).
Proof.
  intros lower.
  refine (conj _ (conj _ (conj _ (conj _ (conj _ _))))).
  - intros lg. apply translate_condition_exact; [discriminate|].
    vm_compute; reflexivity.
  - intros st; repeat split.
  - intros s t b h1 c1 h2 c2; unfold_translate; simpl; by_tier;
      destruct b; reflexivity.
  - intros s t lg1 lg2; unfold_translate; simpl.
    destruct (is_falsy s); [left; reflexivity|].
    destruct (PyDict.get _ _); [left; reflexivity|].
    destruct (first_item _ _) as [[k v]|]; [left; reflexivity|].
    destruct (first_item _ _) as [[k v]|];
      destruct (info_enabled lg1), (info_enabled lg2); simpl; auto.
  - intros s t lg1 lg2; split; unfold_translate; simpl; by_tier; reflexivity.
  - intros s st.
    destruct (translate_keeps_tables_and_level lower s st)
      as [[Hself Hlevel] [Hsys Hsev]].
    rewrite Hsys, Hsev.
    split; [|split; reflexivity].
    apply (translate_outcome_depends_on lower s _ st Hself Hlevel).
Qed.

(** C5, at the failing input.  The fixed outputs hold: on the shipped table
    [translate_condition "ज्वर"] returns "Fever" whatever the state of the
    logger, and on the empty string each of the three operations returns the
    empty string in every state.  But two calls with the same input and the
    same tables do not always return the same result: with the shipped
    tables, [translate_condition "xyz"] returns "xyz" when the logger is at
    its default level and raises [TypeError] when the logger is enabled for
    INFO, because the logging call of the fallback passes keywords that
    [logging.Logger._log] does not take (the defect of C1). *)
Theorem C5_same_input_and_tables_two_results :
  (forall (lower : pystr -> pystr) (lg : Logger),
      translate_condition lower (u "ज्वर") (module_env lg)
      = (Returned (u "Fever"), module_env lg))
  /\ (forall (lower : pystr -> pystr) (st : Env),
         fst (translate_condition lower [] st) = Returned []
         /\ fst (translate_system_type lower [] st) = Returned []
         /\ fst (translate_severity lower [] st) = Returned [])
  /\ self_ (module_env default_logger) = self_ (module_env info_logger)
  /\ fst (translate_condition lower_ascii (u "xyz")
            (module_env default_logger))
     = Returned (u "xyz")
  /\ fst (translate_condition lower_ascii (u "xyz") (module_env info_logger))
     = Raised TypeError
  /\ fst (translate_condition lower_ascii (u "xyz")
            (module_env default_logger))
     <> fst (translate_condition lower_ascii (u "xyz")
               (module_env info_logger)).
Proof.
  refine (conj _ (conj _ (conj _ (conj _ (conj _ _))))).
  - intros lower lg; apply translate_condition_exact; [discriminate|].
    vm_compute; reflexivity.
  - intros lower st; repeat split.
  - reflexivity.
  - vm_compute; reflexivity.
  - vm_compute; reflexivity.
  - vm_compute; discriminate.
Qed.

(** What the three add operations leave behind: the assignment is made
    before the logging call, so the table is updated whether the logging call
    returns or raises. *)
Lemma add_mapping_tables (n e : pystr) (st : Env) :
  self_ (snd (add_condition_mapping n e st))
  = mkTranslator (PyDict.set n e (condition_mapping (self_ st)))
      (system_type_mapping (self_ st)) (severity_mapping (self_ st))
  /\ self_ (snd (add_system_type_mapping n e st))
     = mkTranslator (condition_mapping (self_ st))
         (PyDict.set n e (system_type_mapping (self_ st)))
         (severity_mapping (self_ st))
  /\ self_ (snd (add_severity_mapping n e st))
     = mkTranslator (condition_mapping (self_ st))
         (system_type_mapping (self_ st))
         (PyDict.set n e (severity_mapping (self_ st))).
Proof.
  unfold add_condition_mapping, add_system_type_mapping, add_severity_mapping,
    log_info, Logger_info; simpl.
  destruct (info_enabled (logger st)); simpl; auto.
Qed.

(** C6. Registering a pair is framed and visible at once.  For a non-empty
    native term [n] that is its own trimmed form and any English term [e],
    in the state [add_condition_mapping n e] leaves behind: every other key
    maps to what it mapped to before, the other items stand where they
    stood, the two other tables are untouched, [n] maps to [e], and
    [translate_condition n] returns [e] from the exact tier, changing
    nothing.  The same holds for [add_system_type_mapping] with
    [translate_system_type] and for [add_severity_mapping] with
    [translate_severity]. *)
Theorem C6_add_mapping_is_framed_and_visible :
  forall (lower : pystr -> pystr) (n e : pystr) (st : Env),
    strip n = n ->
    n <> [] ->
    (let st' := snd (add_condition_mapping n e st) in
     (forall k, k <> n ->
                PyDict.get k (condition_mapping (self_ st'))
                = PyDict.get k (condition_mapping (self_ st)))
     /\ filter (fun kv => negb (eqb n (fst kv)))
          (PyDict.items (condition_mapping (self_ st')))
        = filter (fun kv => negb (eqb n (fst kv)))
            (PyDict.items (condition_mapping (self_ st)))
     /\ system_type_mapping (self_ st') = system_type_mapping (self_ st)
     /\ severity_mapping (self_ st') = severity_mapping (self_ st)
     /\ PyDict.get (strip n) (condition_mapping (self_ st')) = Some e
     /\ translate_condition lower n st' = (Returned e, st'))
    /\
    (let st' := snd (add_system_type_mapping n e st) in
     (forall k, k <> n ->
                PyDict.get k (system_type_mapping (self_ st'))
                = PyDict.get k (system_type_mapping (self_ st)))
     /\ filter (fun kv => negb (eqb n (fst kv)))
          (PyDict.items (system_type_mapping (self_ st')))
        = filter (fun kv => negb (eqb n (fst kv)))
            (PyDict.items (system_type_mapping (self_ st)))
     /\ condition_mapping (self_ st') = condition_mapping (self_ st)
     /\ severity_mapping (self_ st') = severity_mapping (self_ st)
     /\ PyDict.get (strip n) (system_type_mapping (self_ st')) = Some e
     /\ translate_system_type lower n st' = (Returned e, st'))
    /\
    (let st' := snd (add_severity_mapping n e st) in
     (forall k, k <> n ->
                PyDict.get k (severity_mapping (self_ st'))
                = PyDict.get k (severity_mapping (self_ st)))
     /\ filter (fun kv => negb (eqb n (fst kv)))
          (PyDict.items (severity_mapping (self_ st')))
        = filter (fun kv => negb (eqb n (fst kv)))
            (PyDict.items (severity_mapping (self_ st)))
     /\ condition_mapping (self_ st') = condition_mapping (self_ st)
     /\ system_type_mapping (self_ st') = system_type_mapping (self_ st)
     /\ PyDict.get (strip n) (severity_mapping (self_ st')) = Some e
     /\ translate_severity lower n st' = (Returned e, st')).
Proof.
  intros lower n e st Hstrip Hn.
  destruct (add_mapping_tables n e st) as [Hc [Hs Hv]].
  refine (conj _ (conj _ _)); cbv zeta.
  - assert (Hget : PyDict.get (strip n)
                     (condition_mapping
                        (self_ (snd (add_condition_mapping n e st)))) = Some e)
      by (rewrite Hc, Hstrip; simpl; apply get_set_same).
    refine (conj _ (conj _ (conj _ (conj _ (conj Hget _))))).
    + intros k Hk; rewrite Hc; simpl; apply get_set_other; exact Hk.
    + rewrite Hc; simpl; apply set_keeps_other_items.
    + rewrite Hc; reflexivity.
    + rewrite Hc; reflexivity.
    + apply translate_condition_exact; assumption.
  - assert (Hget : PyDict.get (strip n)
                     (system_type_mapping
                        (self_ (snd (add_system_type_mapping n e st)))) = Some e)
      by (rewrite Hs, Hstrip; simpl; apply get_set_same).
    refine (conj _ (conj _ (conj _ (conj _ (conj Hget _))))).
    + intros k Hk; rewrite Hs; simpl; apply get_set_other; exact Hk.
    + rewrite Hs; simpl; apply set_keeps_other_items.
    + rewrite Hs; reflexivity.
    + rewrite Hs; reflexivity.
    + apply translate_system_type_exact; assumption.
  - assert (Hget : PyDict.get (strip n)
                     (severity_mapping
                        (self_ (snd (add_severity_mapping n e st)))) = Some e)
      by (rewrite Hv, Hstrip; simpl; apply get_set_same).
    refine (conj _ (conj _ (conj _ (conj _ (conj Hget _))))).
    + intros k Hk; rewrite Hv; simpl; apply get_set_other; exact Hk.
    + rewrite Hv; simpl; apply set_keeps_other_items.
    + rewrite Hv; reflexivity.
    + rewrite Hv; reflexivity.
    + apply translate_severity_exact; assumption.
Qed.

(** C6, an instance: "सिरदर्द" is registered as "Headache" on the shipped
    tables with logging at INFO; the call to [add_condition_mapping] raises
    after the assignment, the key "ज्वर" still maps to "Fever", and the
    next [translate_condition "सिरदर्द"] returns "Headache". *)
Lemma C6_witness :
  strip (u "सिरदर्द") = u "सिरदर्द"
  /\ u "सिरदर्द" <> []
  /\ PyDict.get (u "ज्वर")
       (condition_mapping
          (self_ (snd (add_condition_mapping (u "सिरदर्द") (u "Headache")
                         (module_env info_logger)))))
     = Some (u "Fever")
  /\ translate_condition lower_ascii (u "सिरदर्द")
       (snd (add_condition_mapping (u "सिरदर्द") (u "Headache")
               (module_env info_logger)))
     = (Returned (u "Headache"),
        snd (add_condition_mapping (u "सिरदर्द") (u "Headache")
               (module_env info_logger))).
Proof.
  assert (H1 : strip (u "सिरदर्द") = u "सिरदर्द") by reflexivity.
  assert (H2 : u "सिरदर्द" <> []) by discriminate.
  pose proof (proj1 (C6_add_mapping_is_framed_and_visible lower_ascii
                       (u "Headache") (module_env info_logger) H1 H2)) as H.
  cbv zeta in H.
  destruct H as [Hframe [_ [_ [_ [_ Htr]]]]].
  refine (conj H1 (conj H2 (conj _ Htr))).
  rewrite (Hframe (u "ज्वर")); [reflexivity | discriminate].
Defined.

(** C9. An [EMRCondition] built without a status has the status "active",
    and an [EMREncounter] built without an encounter type has the type
    "traditional_medicine_consultation", whatever the other arguments are;
    a status or type that is given is kept. *)
Theorem C9_model_defaults :
  (forall (utcnow : datetime)
          (condition_id patient_id condition_name tm2_code system_type
             severity : pystr)
          (diagnosis_date : datetime) (practitioner_id : pystr)
          (icd_code notes : option pystr) (created_at : option datetime),
      EMRCondition.status
        (EMRCondition.new utcnow condition_id patient_id condition_name
           tm2_code system_type severity diagnosis_date practitioner_id
           icd_code None notes created_at)
      = u "active"
      /\ forall given : pystr,
          EMRCondition.status
            (EMRCondition.new utcnow condition_id patient_id condition_name
               tm2_code system_type severity diagnosis_date practitioner_id
               icd_code (Some given) notes created_at)
          = given)
  /\
  (forall (utcnow : datetime) (encounter_id patient_id : pystr)
          (encounter_date : datetime) (practitioner_id : pystr)
          (location : option pystr) (conditions : option (list pystr))
          (created_at : option datetime),
      EMREncounter.encounter_type
        (EMREncounter.new utcnow encounter_id patient_id encounter_date
           practitioner_id None location conditions created_at)
      = u "traditional_medicine_consultation"
      /\ forall given : pystr,
          EMREncounter.encounter_type
            (EMREncounter.new utcnow encounter_id patient_id encounter_date
               practitioner_id (Some given) location conditions created_at)
          = given).
Proof.
  split; intros; split; reflexivity.
Qed.

(** C7, as amended.  Logging calls by tier.  [translate_condition] makes one
    call of [logger.info] when the input is non-empty, its cleaned form is no
    key of the table and equals no key with case ignored; the message is
    "Partial match found for condition translation" when some key contains
    the cleaned input or is contained in it, and "No translation found for
    condition" otherwise.  It makes no logging call on the empty input, on an
    exact hit or on a case-insensitive hit.  [translate_system_type] and
    [translate_severity] leave the logger as it was on every input. *)
Theorem C7_logging_calls_by_tier :
  forall (lower : pystr -> pystr) (s : pystr) (st : Env),
    (exists new : list LogCall,
        calls (logger (snd (translate_condition lower s st)))
        = calls (logger st) ++ new
        /\ if answered_above_partial lower (condition_mapping (self_ st)) s
           then new = []
                /\ snd (translate_condition lower s st) = st
           else exists c : LogCall,
               new = [c]
               /\ msg c
                  = (if has_partial_key lower (strip s)
                          (condition_mapping (self_ st))
                     then "Partial match found for condition translation"
                     else "No translation found for condition")%string)
    /\ logger (snd (translate_system_type lower s st)) = logger st
    /\ logger (snd (translate_severity lower s st)) = logger st.
Proof.
  intros lower s st.
  destruct (translate_keeps_tables_and_level lower s st) as [_ [Hsys Hsev]].
  rewrite Hsys, Hsev; split; [|split; reflexivity].
  unfold answered_above_partial, has_case_insensitive_key, has_partial_key,
    PyDict.mem, translate_condition.
  destruct (is_falsy s); simpl.
  { exists []; rewrite app_nil_r; auto. }
  destruct (PyDict.get (strip s) (condition_mapping (self_ st))); simpl.
  { exists []; rewrite app_nil_r; auto. }
  destruct (first_item (fun key _ => same_ignoring_case lower (strip s) key)
              (PyDict.items (condition_mapping (self_ st))))
    as [[k v]|] eqn:Eci.
  { apply first_item_some in Eci; simpl in Eci; rewrite Eci.
    exists []; rewrite app_nil_r; auto. }
  apply first_item_none in Eci; simpl in Eci; rewrite Eci.
  destruct (first_item (fun key _ => partial_match lower (strip s) key)
              (PyDict.items (condition_mapping (self_ st))))
    as [[k v]|] eqn:Ep.
  - apply first_item_some in Ep; simpl in Ep; rewrite Ep.
    exists [mkLogCall "Partial match found for condition translation"
              [("original"%string, s); ("matched"%string, k);
               ("translated"%string, v)]].
    split; [|eexists; split; reflexivity].
    unfold bind, ret, log_info, Logger_info; simpl.
    destruct (info_enabled (logger st)); reflexivity.
  - apply first_item_none in Ep; simpl in Ep; rewrite Ep.
    exists [mkLogCall "No translation found for condition"
              [("original"%string, s);
               ("action"%string, u "keeping_original")]].
    split; [|eexists; split; reflexivity].
    unfold bind, ret, log_info, Logger_info; simpl.
    destruct (info_enabled (logger st)); reflexivity.
Qed.

(** C7, counterexample.  With logging at INFO, "FEVER" is no key of the
    condition table; it is answered by the case-insensitive tier with
    "Fever", and the logger holds no call and no record after it.  The
    unknown severity "unknown" falls through to the original input, again
    with nothing logged. *)
Lemma C7_case_insensitive_hit_is_not_recorded :
  PyDict.mem (strip (u "FEVER")) (condition_mapping AYUSHTranslator_init)
  = false
  /\ translate_condition lower_ascii (u "FEVER") (module_env info_logger)
     = (Returned (u "Fever"), module_env info_logger)
  /\ calls (logger (module_env info_logger)) = []
  /\ handled (logger (module_env info_logger)) = []
  /\ translate_severity lower_ascii (u "unknown") (module_env info_logger)
     = (Returned (u "unknown"), module_env info_logger).
Proof.
  repeat split; vm_compute; reflexivity.
Qed.

(** C8.  The end-to-end scenario: the row (PAT001, TM2.A01.01, "अनिद्रा",
    "आयुर्वेद", "मध्यम", 2024-01-15, DOC123) followed by a duplicate of it.
    The pipeline returns one patient, whose patient_id is "PAT001", and one
    condition, of that patient, with condition_name "Insomnia", system_type
    "Ayurveda", severity "Moderate", tm2_code "TM2.A01.01" and status
    "active" (and one encounter of the default type holding that
    condition), with duplicates_removed = 1 and invalid_records_removed = 0,
    whatever the logger's state, the clock and the identifier generators
    are; the three terms are translated by the source's translator, each by
    its exact tier.  Every field of the three entities is written out. *)
Theorem C8_end_to_end_scenario :
  forall (lower : pystr -> pystr) (utcnow : datetime)
         (gen_condition_id : CleanedRecord -> pystr)
         (gen_encounter_id : pystr -> datetime -> pystr -> pystr)
         (lg : Logger),
    let date := mkDatetime 2024 1 15 0 in
    let row :=
      mkCleaned (u "PAT001") (u "TM2.A01.01") (u "Insomnia") (u "Ayurveda")
                (u "Moderate") date (u "DOC123") in
    pipeline lower utcnow gen_condition_id gen_encounter_id
      [scenario_row; scenario_row] (module_env lg)
    = (Returned
         (mkGraph
            [{| EMRPatient.patient_id := u "PAT001";
                EMRPatient.given_name := None;
                EMRPatient.family_name := None;
                EMRPatient.gender := None;
                EMRPatient.birth_date := None;
                EMRPatient.address := None;
                EMRPatient.phone_number := None;
                EMRPatient.created_at := utcnow |}]
            [{| EMRCondition.condition_id := gen_condition_id row;
                EMRCondition.patient_id := u "PAT001";
                EMRCondition.condition_name := u "Insomnia";
                EMRCondition.icd_code := None;
                EMRCondition.tm2_code := u "TM2.A01.01";
                EMRCondition.system_type := u "Ayurveda";
                EMRCondition.severity := u "Moderate";
                EMRCondition.diagnosis_date := date;
                EMRCondition.practitioner_id := u "DOC123";
                EMRCondition.status := u "active";
                EMRCondition.notes := None;
                EMRCondition.created_at := utcnow |}]
            [{| EMREncounter.encounter_id :=
                  gen_encounter_id (u "PAT001") date (u "DOC123");
                EMREncounter.patient_id := u "PAT001";
                EMREncounter.encounter_type :=
                  u "traditional_medicine_consultation";
                EMREncounter.encounter_date := date;
                EMREncounter.practitioner_id := u "DOC123";
                EMREncounter.location := None;
                EMREncounter.conditions := [gen_condition_id row];
                EMREncounter.created_at := utcnow |}],
          {| duplicates_removed := 1; invalid_records_removed := 0 |}),
       module_env lg)
    /\ translate_condition lower (u "अनिद्रा") (module_env lg)
       = (Returned (u "Insomnia"), module_env lg)
    /\ translate_system_type lower (u "आयुर्वेद") (module_env lg)
       = (Returned (u "Ayurveda"), module_env lg)
    /\ translate_severity lower (u "मध्यम") (module_env lg)
       = (Returned (u "Moderate"), module_env lg).
Proof.
  intros lower utcnow gen_c gen_e lg date row.
  assert (Hc : translate_condition lower (u "अनिद्रा") (module_env lg)
               = (Returned (u "Insomnia"), module_env lg))
    by (apply translate_condition_exact;
        [discriminate | vm_compute; reflexivity]).
  assert (Hs : translate_system_type lower (u "आयुर्वेद") (module_env lg)
               = (Returned (u "Ayurveda"), module_env lg))
    by (apply translate_system_type_exact;
        [discriminate | vm_compute; reflexivity]).
  assert (Hv : translate_severity lower (u "मध्यम") (module_env lg)
               = (Returned (u "Moderate"), module_env lg))
    by (apply translate_severity_exact;
        [discriminate | vm_compute; reflexivity]).
  refine (conj _ (conj Hc (conj Hs Hv))).
  vm_compute; reflexivity.
Qed.

(** C1, at the failing input.  With the module logger enabled for INFO (as
    after [logging.basicConfig(level=logging.INFO)]) a call of
    [translate_condition] that reaches the partial-match tier or the
    no-match fallback raises [TypeError]: [logger.info] is called with the
    keywords [original], [matched], [translated] or [action], which
    [logging.Logger._log] does not take.  "xyz" has no match and
    "chronic headache" has a partial match; both raise.  With the logger at
    its default level the same calls return "xyz" and "Headache". *)
Theorem C1_translate_condition_raises_under_info_logging :
  fst (translate_condition lower_ascii (u "xyz") (module_env info_logger))
  = Raised TypeError
  /\ fst (translate_condition lower_ascii (u "chronic headache")
            (module_env info_logger))
     = Raised TypeError
  /\ fst (translate_condition lower_ascii (u "xyz")
            (module_env default_logger))
     = Returned (u "xyz")
  /\ fst (translate_condition lower_ascii (u "chronic headache")
            (module_env default_logger))
     = Returned (u "Headache").
Proof.
  repeat split; vm_compute; reflexivity.
Qed.

(** X1. [translate_condition] raises exactly when the logger is enabled for
    INFO and the input is answered neither by the early return for the empty
    string nor by the exact or the case-insensitive tier; in every other
    case it returns a value.  [translate_system_type] and
    [translate_severity] never raise. *)
Theorem translate_condition_raises_exactly_when :
  forall (lower : pystr -> pystr) (s : pystr) (st : Env),
    (fst (translate_condition lower s st) = Raised TypeError
     <-> info_enabled (logger st) = true
         /\ answered_above_partial lower (condition_mapping (self_ st)) s
            = false)
    /\ (fst (translate_condition lower s st) = Raised TypeError
        \/ exists v, fst (translate_condition lower s st) = Returned v)
    /\ (exists v, fst (translate_system_type lower s st) = Returned v)
    /\ (exists v, fst (translate_severity lower s st) = Returned v).
Proof.
  intros lower s st.
  refine (conj _ (conj _ (conj _ _))).
  - unfold answered_above_partial, has_case_insensitive_key, PyDict.mem,
      translate_condition.
    destruct (is_falsy s); simpl.
    { split; [discriminate | intros [_ H]; discriminate]. }
    destruct (PyDict.get (strip s) (condition_mapping (self_ st))); simpl.
    { split; [discriminate | intros [_ H]; discriminate]. }
    destruct (first_item (fun key _ => same_ignoring_case lower (strip s) key)
                (PyDict.items (condition_mapping (self_ st))))
      as [[k v]|] eqn:Eci.
    { apply first_item_some in Eci; simpl in Eci; rewrite Eci.
      split; [discriminate | intros [_ H]; discriminate]. }
    apply first_item_none in Eci; simpl in Eci; rewrite Eci.
    destruct (first_item (fun key _ => partial_match lower (strip s) key)
                (PyDict.items (condition_mapping (self_ st))))
      as [[k v]|];
      unfold bind, ret, log_info, Logger_info; simpl;
      destruct (info_enabled (logger st)); simpl;
      (split; [intros H; try discriminate; auto | intros [H _]; try discriminate; auto]).
  - unfold_translate; by_tier; eauto.
  - unfold_translate; by_tier; eauto.
  - unfold_translate; by_tier; eauto.
Qed.

(** X2. The tiers of [translate_condition], in their order, for a non-empty
    input [s] with cleaned form [c]:
    - when [c] is a key, the value of [c] is returned;
    - otherwise, when [k] is the first key in table order that equals [c]
      with case ignored, the value of [k] is returned;
    - otherwise, when [k] is the first key in table order that is contained
      in [c] or contains it, case ignored, the match is logged and, the
      logger not being enabled for INFO, the value of [k] is returned;
    - otherwise the fallback is logged and, the logger not being enabled for
      INFO, the original input [s] is returned as it was given. *)
Theorem translate_condition_follows_the_tiers :
  forall (lower : pystr -> pystr) (s : pystr) (st : Env),
    (forall v,
        s <> [] ->
        PyDict.get (strip s) (condition_mapping (self_ st)) = Some v ->
        translate_condition lower s st = (Returned v, st))
    /\ (forall before after k v,
           s <> [] ->
           PyDict.mem (strip s) (condition_mapping (self_ st)) = false ->
           PyDict.items (condition_mapping (self_ st))
           = before ++ (k, v) :: after ->
           forallb (fun kv => negb (same_ignoring_case lower (strip s) (fst kv)))
             before = true ->
           same_ignoring_case lower (strip s) k = true ->
           translate_condition lower s st = (Returned v, st))
    /\ (forall before after k v,
           s <> [] ->
           PyDict.mem (strip s) (condition_mapping (self_ st)) = false ->
           has_case_insensitive_key lower (strip s)
             (condition_mapping (self_ st)) = false ->
           PyDict.items (condition_mapping (self_ st))
           = before ++ (k, v) :: after ->
           forallb (fun kv => negb (partial_match lower (strip s) (fst kv)))
             before = true ->
           partial_match lower (strip s) k = true ->
           info_enabled (logger st) = false ->
           fst (translate_condition lower s st) = Returned v)
    /\ (s <> [] ->
        PyDict.mem (strip s) (condition_mapping (self_ st)) = false ->
        has_case_insensitive_key lower (strip s)
          (condition_mapping (self_ st)) = false ->
        has_partial_key lower (strip s) (condition_mapping (self_ st))
        = false ->
        info_enabled (logger st) = false ->
        fst (translate_condition lower s st) = Returned s).
Proof.
  intros lower s st.
  refine (conj _ (conj _ (conj _ _))).
  - intros v Hs Hget; apply translate_condition_exact; assumption.
  - intros before after k v Hs Hmem Hitems Hbefore Hk.
    unfold PyDict.mem in Hmem; unfold translate_condition.
    destruct s as [|c s']; [congruence|]; simpl is_falsy; cbv iota.
    destruct (PyDict.get _ _); [discriminate|].
    rewrite Hitems.
    rewrite (first_item_split
               (fun key _ => same_ignoring_case lower (strip (c :: s')) key)
               before after k v Hbefore Hk).
    reflexivity.
  - intros before after k v Hs Hmem Hci Hitems Hbefore Hk Hlog.
    unfold PyDict.mem in Hmem; unfold has_case_insensitive_key in Hci.
    unfold translate_condition.
    destruct s as [|c s']; [congruence|]; simpl is_falsy; cbv iota.
    destruct (PyDict.get _ _); [discriminate|].
    apply (proj2 (first_item_none
                    (fun key _ => same_ignoring_case lower _ key) _)) in Hci.
    rewrite Hci, Hitems.
    rewrite (first_item_split
               (fun key _ => partial_match lower (strip (c :: s')) key)
               before after k v Hbefore Hk).
    unfold bind, ret, log_info, Logger_info; rewrite Hlog; reflexivity.
  - intros Hs Hmem Hci Hp Hlog.
    unfold PyDict.mem in Hmem.
    unfold has_case_insensitive_key in Hci; unfold has_partial_key in Hp.
    unfold translate_condition.
    destruct s as [|c s']; [congruence|]; simpl is_falsy; cbv iota.
    destruct (PyDict.get _ _); [discriminate|].
    apply (proj2 (first_item_none
                    (fun key _ => same_ignoring_case lower _ key) _)) in Hci.
    apply (proj2 (first_item_none
                    (fun key _ => partial_match lower _ key) _)) in Hp.
    rewrite Hci, Hp.
    unfold bind, ret, log_info, Logger_info; rewrite Hlog; reflexivity.
Qed.

(** The tiers, an instance: "Fever" is no key; the first key that equals it
    with case ignored is "fever", the 78th of the table, and its value
    "Fever" is returned with nothing logged. *)
Lemma translate_condition_tiers_witness :
  translate_condition lower_ascii (u "Fever") (module_env info_logger)
  = (Returned (u "Fever"), module_env info_logger).
Proof.
  apply (proj1 (proj2 (translate_condition_follows_the_tiers
                         lower_ascii (u "Fever") (module_env info_logger)))
           (firstn 77 (condition_mapping AYUSHTranslator_init))
           (skipn 78 (condition_mapping AYUSHTranslator_init))
           (u "fever") (u "Fever"));
    vm_compute; (reflexivity || discriminate).
Defined.

(* ------------------------------------------------------------------ *)
(** ** Registering pairs *)

Lemma mem_set (k k' v : pystr) (d : PyDict.t) :
  PyDict.mem k' (PyDict.set k v d) = eqb k' k || PyDict.mem k' d.
Proof.
  unfold PyDict.mem.
  destruct (eqb k' k) eqn:E; simpl.
  - apply eqb_eq in E; subst k'. rewrite get_set_same; reflexivity.
  - rewrite get_set_other; [reflexivity|].
    intros ->; rewrite eqb_refl in E; discriminate.
Qed.

Lemma len_set (k v : pystr) (d : PyDict.t) :
  PyDict.len (PyDict.set k v d)
  = if PyDict.mem k d then PyDict.len d else S (PyDict.len d).
Proof.
  unfold PyDict.len, PyDict.mem.
  induction d as [|[k0 v0] d IH]; simpl; [reflexivity|].
  destruct (eqb k k0); simpl; [reflexivity|].
  rewrite IH; destruct (PyDict.get k d); reflexivity.
Qed.

Lemma keys_set (k v : pystr) (d : PyDict.t) :
  keys (PyDict.set k v d)
  = if PyDict.mem k d then keys d else keys d ++ [k].
Proof.
  unfold keys, PyDict.items, PyDict.mem.
  induction d as [|[k0 v0] d IH]; simpl; [reflexivity|].
  destruct (eqb k k0); simpl; [reflexivity|].
  rewrite IH; destruct (PyDict.get k d); reflexivity.
Qed.

Lemma set_set (k v1 v2 : pystr) (d : PyDict.t) :
  PyDict.set k v2 (PyDict.set k v1 d) = PyDict.set k v2 d.
Proof.
  induction d as [|[k0 v0] d IH]; simpl.
  - rewrite eqb_refl; reflexivity.
  - destruct (eqb k k0) eqn:E; simpl; rewrite E; congruence.
Qed.

Lemma unique_keys_set (k v : pystr) (d : PyDict.t) :
  unique_keys d -> unique_keys (PyDict.set k v d).
Proof.
  unfold unique_keys.
  induction d as [|[k0 v0] d IH]; simpl; intros H; [reflexivity|].
  apply andb_true_iff in H as [Hk0 Hd].
  destruct (eqb k k0) eqn:E; simpl.
  - rewrite Hk0, Hd; reflexivity.
  - rewrite mem_set, (IH Hd).
    destruct (eqb k0 k) eqn:E'.
    + apply eqb_eq in E'; subst k0; rewrite eqb_refl in E; discriminate.
    + simpl; rewrite Hk0; reflexivity.
Qed.

(** The outcome of the logging call of an add operation, and the logger it
    leaves behind. *)
Lemma add_mapping_logging (n e : pystr) (st : Env) :
  (fst (add_condition_mapping n e st)
   = (if info_enabled (logger st) then Raised TypeError else Returned tt)
   /\ handled (logger (snd (add_condition_mapping n e st)))
      = handled (logger st)
   /\ info_enabled (logger (snd (add_condition_mapping n e st)))
      = info_enabled (logger st))
  /\ (fst (add_system_type_mapping n e st)
      = (if info_enabled (logger st) then Raised TypeError else Returned tt)
      /\ handled (logger (snd (add_system_type_mapping n e st)))
         = handled (logger st)
      /\ info_enabled (logger (snd (add_system_type_mapping n e st)))
         = info_enabled (logger st))
  /\ (fst (add_severity_mapping n e st)
      = (if info_enabled (logger st) then Raised TypeError else Returned tt)
      /\ handled (logger (snd (add_severity_mapping n e st)))
         = handled (logger st)
      /\ info_enabled (logger (snd (add_severity_mapping n e st)))
         = info_enabled (logger st)).
Proof.
  unfold add_condition_mapping, add_system_type_mapping, add_severity_mapping,
    log_info, Logger_info; simpl.
  destruct (info_enabled (logger st)); simpl; auto 10.
Qed.

(** X3. Counts after registering.  [get_translation_stats] after an add
    operation: registering a term that the table does not have raises the
    count of that table and the total by one; registering a term the table
    has changes no count.  The counts of the two other tables stay. *)
Theorem add_mapping_counts :
  forall (n e : pystr) (st : Env),
    get_translation_stats (self_ (snd (add_condition_mapping n e st)))
    = (let '(c, s, v, total) := get_translation_stats (self_ st) in
       if PyDict.mem n (condition_mapping (self_ st))
       then (c, s, v, total) else (S c, s, v, S total))
    /\ get_translation_stats (self_ (snd (add_system_type_mapping n e st)))
       = (let '(c, s, v, total) := get_translation_stats (self_ st) in
          if PyDict.mem n (system_type_mapping (self_ st))
          then (c, s, v, total) else (c, S s, v, S total))
    /\ get_translation_stats (self_ (snd (add_severity_mapping n e st)))
       = (let '(c, s, v, total) := get_translation_stats (self_ st) in
          if PyDict.mem n (severity_mapping (self_ st))
          then (c, s, v, total) else (c, s, S v, S total)).
Proof.
  intros n e st.
  destruct (add_mapping_tables n e st) as (Hc & Hs & Hv).
  rewrite Hc, Hs, Hv; unfold get_translation_stats; simpl.
  rewrite !len_set.
  refine (conj _ (conj _ _)).
  - destruct (PyDict.mem n (condition_mapping (self_ st))); f_equal; lia.
  - destruct (PyDict.mem n (system_type_mapping (self_ st))); f_equal; lia.
  - destruct (PyDict.mem n (severity_mapping (self_ st))); f_equal; lia.
Qed.

(** X4. An add operation stores before it logs.  Each of the three add
    operations raises [TypeError] exactly when the logger is enabled for
    INFO (its logging call passes the keywords [native] and [english]) and
    returns [None] otherwise; in both cases the pair is in the table
    afterwards, nothing has been passed on to the handlers, and the level of
    the logger is what it was. *)
Theorem add_mapping_raises_after_storing :
  forall (n e : pystr) (st : Env),
    (fst (add_condition_mapping n e st)
     = (if info_enabled (logger st) then Raised TypeError else Returned tt)
     /\ PyDict.get n (condition_mapping (self_ (snd (add_condition_mapping n e st))))
        = Some e
     /\ handled (logger (snd (add_condition_mapping n e st)))
        = handled (logger st))
    /\ (fst (add_system_type_mapping n e st)
        = (if info_enabled (logger st) then Raised TypeError else Returned tt)
        /\ PyDict.get n (system_type_mapping
                           (self_ (snd (add_system_type_mapping n e st))))
           = Some e
        /\ handled (logger (snd (add_system_type_mapping n e st)))
           = handled (logger st))
    /\ (fst (add_severity_mapping n e st)
        = (if info_enabled (logger st) then Raised TypeError else Returned tt)
        /\ PyDict.get n (severity_mapping
                           (self_ (snd (add_severity_mapping n e st))))
           = Some e
        /\ handled (logger (snd (add_severity_mapping n e st)))
           = handled (logger st)).
Proof.
  intros n e st.
  destruct (add_mapping_tables n e st) as (Hc & Hs & Hv).
  destruct (add_mapping_logging n e st)
    as ((Oc & Lc & _) & (Os & Ls & _) & (Ov & Lv & _)).
  rewrite Hc, Hs, Hv; simpl; rewrite !get_set_same.
  auto 10.
Qed.

(** X5. Registering a term again.  The last English term registered for a
    native term is the one that stays: two add operations on the same term leave
    the translator as the second one alone does.  In iteration order a term
    the table has keeps its place, and a new term goes to the end, behind
    every key the loops of the case-insensitive and the partial tier try
    first. *)
Theorem add_mapping_again_keeps_place_and_last_value :
  forall (n e1 e2 : pystr) (st : Env),
    (self_ (snd (add_condition_mapping n e2
                   (snd (add_condition_mapping n e1 st))))
     = self_ (snd (add_condition_mapping n e2 st))
     /\ keys (condition_mapping (self_ (snd (add_condition_mapping n e1 st))))
        = (if PyDict.mem n (condition_mapping (self_ st))
           then keys (condition_mapping (self_ st))
           else keys (condition_mapping (self_ st)) ++ [n]))
    /\ (self_ (snd (add_system_type_mapping n e2
                      (snd (add_system_type_mapping n e1 st))))
        = self_ (snd (add_system_type_mapping n e2 st))
        /\ keys (system_type_mapping
                   (self_ (snd (add_system_type_mapping n e1 st))))
           = (if PyDict.mem n (system_type_mapping (self_ st))
              then keys (system_type_mapping (self_ st))
              else keys (system_type_mapping (self_ st)) ++ [n]))
    /\ (self_ (snd (add_severity_mapping n e2
                      (snd (add_severity_mapping n e1 st))))
        = self_ (snd (add_severity_mapping n e2 st))
        /\ keys (severity_mapping (self_ (snd (add_severity_mapping n e1 st))))
           = (if PyDict.mem n (severity_mapping (self_ st))
              then keys (severity_mapping (self_ st))
              else keys (severity_mapping (self_ st)) ++ [n])).
Proof.
  intros n e1 e2 st.
  pose proof (add_mapping_tables n e2 (snd (add_condition_mapping n e1 st)))
    as (Hc2 & _ & _).
  pose proof (add_mapping_tables n e2 (snd (add_system_type_mapping n e1 st)))
    as (_ & Hs2 & _).
  pose proof (add_mapping_tables n e2 (snd (add_severity_mapping n e1 st)))
    as (_ & _ & Hv2).
  destruct (add_mapping_tables n e1 st) as (Hc1 & Hs1 & Hv1).
  destruct (add_mapping_tables n e2 st) as (Hc & Hs & Hv).
  rewrite Hc2, Hs2, Hv2, Hc, Hs, Hv, Hc1, Hs1, Hv1; simpl.
  rewrite !set_set, !keys_set.
  auto 10.
Qed.

(* ------------------------------------------------------------------ *)
(** ** Sequences of calls *)

Lemma init_tables_well_formed : tables_well_formed AYUSHTranslator_init.
Proof. repeat split; vm_compute; reflexivity. Qed.

Lemma In_mem (k v : pystr) (d : PyDict.t) :
  In (k, v) (PyDict.items d) -> PyDict.mem k d = true.
Proof.
  unfold PyDict.items, PyDict.mem.
  induction d as [|[k0 v0] d IH]; simpl; [tauto|].
  intros [H|H].
  - inversion H; subst; rewrite eqb_refl; reflexivity.
  - destruct (eqb k k0); [reflexivity | auto].
Qed.

(** In a table without repeated keys, what a lookup finds is what the
    iteration yields. *)
Lemma get_iff_In (k v : pystr) (d : PyDict.t) :
  unique_keys d ->
  (PyDict.get k d = Some v <-> In (k, v) (PyDict.items d)).
Proof.
  unfold unique_keys, PyDict.items.
  induction d as [|[k0 v0] d IH]; simpl; intros H.
  - split; [discriminate | tauto].
  - apply andb_true_iff in H as [Hk0 Hd]; apply negb_true_iff in Hk0.
    destruct (eqb k k0) eqn:E.
    + apply eqb_eq in E; subst k0. split.
      * intros H; inversion H; auto.
      * intros [H|H]; [inversion H; reflexivity|].
        apply In_mem in H; congruence.
    + rewrite (IH Hd). split; [auto|].
      intros [H|H]; [|exact H].
      inversion H; subst; rewrite eqb_refl in E; discriminate.
Qed.

(** The translator one call leaves behind: a translate call leaves it as it
    was, an add operation assigns in its table. *)
Lemma run_call_tables (lower : pystr -> pystr) (c : Call) (st : Env) :
  self_ (run_call lower c st)
  = match c with
    | CallAddConditionMapping n e =>
        mkTranslator (PyDict.set n e (condition_mapping (self_ st)))
          (system_type_mapping (self_ st)) (severity_mapping (self_ st))
    | CallAddSystemTypeMapping n e =>
        mkTranslator (condition_mapping (self_ st))
          (PyDict.set n e (system_type_mapping (self_ st)))
          (severity_mapping (self_ st))
    | CallAddSeverityMapping n e =>
        mkTranslator (condition_mapping (self_ st))
          (system_type_mapping (self_ st))
          (PyDict.set n e (severity_mapping (self_ st)))
    | _ => self_ st
    end.
Proof.
  destruct c as [s|s|s|n e|n e|n e]; simpl;
    unfold translate_condition_name, module_translate_system_type,
      module_translate_severity.
  - apply (translate_keeps_tables_and_level lower s st).
  - destruct (translate_keeps_tables_and_level lower s st) as (_ & H & _).
    rewrite H; reflexivity.
  - destruct (translate_keeps_tables_and_level lower s st) as (_ & _ & H).
    rewrite H; reflexivity.
  - apply (add_mapping_tables n e st).
  - apply (add_mapping_tables n e st).
  - apply (add_mapping_tables n e st).
Qed.

(** The logger one call leaves behind has passed nothing on and has the
    level it had. *)
Lemma run_call_logger (lower : pystr -> pystr) (c : Call) (st : Env) :
  handled (logger (run_call lower c st)) = handled (logger st)
  /\ info_enabled (logger (run_call lower c st)) = info_enabled (logger st).
Proof.
  destruct c as [s|s|s|n e|n e|n e]; simpl;
    unfold translate_condition_name, module_translate_system_type,
      module_translate_severity.
  - unfold_translate; by_tier; auto.
  - destruct (translate_keeps_tables_and_level lower s st) as (_ & H & _).
    rewrite H; auto.
  - destruct (translate_keeps_tables_and_level lower s st) as (_ & _ & H).
    rewrite H; auto.
  - destruct (add_mapping_logging n e st) as ((_ & H1 & H2) & _); auto.
  - destruct (add_mapping_logging n e st) as (_ & (_ & H1 & H2) & _); auto.
  - destruct (add_mapping_logging n e st) as (_ & _ & (_ & H1 & H2)); auto.
Qed.

(** What holds before a sequence of calls and is kept by each call holds
    after the sequence. *)
Lemma run_calls_invariant (lower : pystr -> pystr) (P : Env -> Prop) :
  (forall c st, P st -> P (run_call lower c st)) ->
  forall cs st, P st -> P (run_calls lower cs st).
Proof.
  intros Hstep cs; unfold run_calls.
  induction cs as [|c cs IH]; simpl; intros st H; [exact H|].
  apply IH, Hstep, H.
Qed.

(** Adequacy of the association-list encoding of [dict]: the add
    operations keep a table free of repeated keys, so that every state a
    sequence of calls reaches from such tables has such tables, and in them
    the value a lookup finds for a key is the value the iteration yields
    with that key.  (Every Python dictionary has both properties; the lemma
    says that the encoding does not leave the dictionaries.) *)
Lemma calls_keep_tables_well_formed :
  forall (lower : pystr -> pystr) (cs : list Call) (st : Env),
    tables_well_formed (self_ st) ->
    let self' := self_ (run_calls lower cs st) in
    tables_well_formed self'
    /\ forall k v,
         (PyDict.get k (condition_mapping self') = Some v
          <-> In (k, v) (PyDict.items (condition_mapping self')))
         /\ (PyDict.get k (system_type_mapping self') = Some v
             <-> In (k, v) (PyDict.items (system_type_mapping self')))
         /\ (PyDict.get k (severity_mapping self') = Some v
             <-> In (k, v) (PyDict.items (severity_mapping self'))).
Proof.
  intros lower cs st H; cbv zeta.
  assert (Hwf : tables_well_formed (self_ (run_calls lower cs st))).
  { revert H.
    apply (run_calls_invariant lower (fun st => tables_well_formed (self_ st))).
    clear; intros c st (Hc & Hs & Hv).
    rewrite run_call_tables; unfold tables_well_formed.
    destruct c; simpl; auto using unique_keys_set. }
  split; [exact Hwf|].
  destruct Hwf as (Hc & Hs & Hv).
  intros k v; auto using get_iff_In.
Qed.

(** X7. No call removes a term.  A term that a table has before a sequence of
    calls is a term it has after the sequence, and no table gets shorter:
    the interface has assignment only, no deletion. *)
Theorem calls_never_remove_a_term :
  forall (lower : pystr -> pystr) (cs : list Call) (st : Env) (k : pystr),
    let self' := self_ (run_calls lower cs st) in
    (PyDict.mem k (condition_mapping (self_ st)) = true ->
     PyDict.mem k (condition_mapping self') = true)
    /\ (PyDict.mem k (system_type_mapping (self_ st)) = true ->
        PyDict.mem k (system_type_mapping self') = true)
    /\ (PyDict.mem k (severity_mapping (self_ st)) = true ->
        PyDict.mem k (severity_mapping self') = true)
    /\ PyDict.len (condition_mapping (self_ st))
       <= PyDict.len (condition_mapping self')
    /\ PyDict.len (system_type_mapping (self_ st))
       <= PyDict.len (system_type_mapping self')
    /\ PyDict.len (severity_mapping (self_ st))
       <= PyDict.len (severity_mapping self').
Proof.
  intros lower cs st k; cbv zeta.
  apply (run_calls_invariant lower
           (fun st' =>
              (PyDict.mem k (condition_mapping (self_ st)) = true ->
               PyDict.mem k (condition_mapping (self_ st')) = true)
              /\ (PyDict.mem k (system_type_mapping (self_ st)) = true ->
                  PyDict.mem k (system_type_mapping (self_ st')) = true)
              /\ (PyDict.mem k (severity_mapping (self_ st)) = true ->
                  PyDict.mem k (severity_mapping (self_ st')) = true)
              /\ PyDict.len (condition_mapping (self_ st))
                 <= PyDict.len (condition_mapping (self_ st'))
              /\ PyDict.len (system_type_mapping (self_ st))
                 <= PyDict.len (system_type_mapping (self_ st'))
              /\ PyDict.len (severity_mapping (self_ st))
                 <= PyDict.len (severity_mapping (self_ st')))).
  - clear cs; intros c st' (Mc & Ms & Mv & Lc & Ls & Lv).
    rewrite run_call_tables.
    destruct c as [s|s|s|n e|n e|n e]; simpl; auto 10.
    + refine (conj _ (conj Ms (conj Mv (conj _ (conj Ls Lv))))).
      * intros H; rewrite mem_set, (Mc H); apply orb_true_r.
      * rewrite len_set; destruct (PyDict.mem n _); lia.
    + refine (conj Mc (conj _ (conj Mv (conj Lc (conj _ Lv))))).
      * intros H; rewrite mem_set, (Ms H); apply orb_true_r.
      * rewrite len_set; destruct (PyDict.mem n _); lia.
    + refine (conj Mc (conj Ms (conj _ (conj Lc (conj Ls _))))).
      * intros H; rewrite mem_set, (Mv H); apply orb_true_r.
      * rewrite len_set; destruct (PyDict.mem n _); lia.
  - auto 10.
Qed.

(** "ज्वर" stays a term of the condition table when it is registered again
    and a new term is registered after it. *)
Lemma calls_never_remove_a_term_witness :
  PyDict.mem (u "ज्वर")
    (condition_mapping
       (self_ (run_calls lower_ascii
                 [CallAddConditionMapping (u "ज्वर") (u "Pyrexia");
                  CallAddConditionMapping (u "pyrexia") (u "Fever")]
                 (module_env default_logger))))
  = true.
Proof.
  apply (proj1 (calls_never_remove_a_term lower_ascii
                  [CallAddConditionMapping (u "ज्वर") (u "Pyrexia");
                   CallAddConditionMapping (u "pyrexia") (u "Fever")]
                  (module_env default_logger) (u "ज्वर"))).
  vm_compute; reflexivity.
Defined.

(** X8. Nothing is ever logged.  After any sequence of calls of the module's
    functions and the translator's add operations, the logger has passed on
    to its handlers exactly the records it had passed on before, and its
    level is what it was: every logging call of the module passes keywords
    that [Logger._log] does not take, so it is dropped below INFO and raises
    from INFO on. *)
Theorem no_call_gets_a_record_to_the_handlers :
  forall (lower : pystr -> pystr) (cs : list Call) (st : Env),
    handled (logger (run_calls lower cs st)) = handled (logger st)
    /\ info_enabled (logger (run_calls lower cs st))
       = info_enabled (logger st).
Proof.
  intros lower cs st.
  apply (run_calls_invariant lower
           (fun st' =>
              handled (logger st') = handled (logger st)
              /\ info_enabled (logger st') = info_enabled (logger st))).
  - clear cs; intros c st' (Hh & Hl).
    destruct (run_call_logger lower c st') as (Hh' & Hl').
    rewrite Hh', Hl'; auto.
  - auto.
Qed.

(* ------------------------------------------------------------------ *)
(** ** What a translate call can return *)

Lemma first_item_In (test : pystr -> pystr -> bool)
  (its : list (pystr * pystr)) (k v : pystr) :
  first_item test its = Some (k, v) -> In (k, v) its /\ test k v = true.
Proof.
  unfold first_item; intros H; apply find_some in H; exact H.
Qed.

Lemma In_values (k v : pystr) (d : PyDict.t) :
  In (k, v) (PyDict.items d) -> In v (values d).
Proof.
  intros H; unfold values; change v with (snd (k, v)); apply in_map, H.
Qed.

(** A key that the exact tier finds is a key that equals the cleaned input
    with case ignored. *)
Lemma get_has_case_insensitive_key (lower : pystr -> pystr) (k v : pystr)
  (d : PyDict.t) :
  PyDict.get k d = Some v -> has_case_insensitive_key lower k d = true.
Proof.
  unfold has_case_insensitive_key, PyDict.items, same_ignoring_case.
  induction d as [|[k0 v0] d IH]; simpl; [discriminate|].
  destruct (eqb k k0) eqn:E.
  - apply eqb_eq in E; subst k0; rewrite eqb_refl; reflexivity.
  - intros H; rewrite (IH H); apply orb_true_r.
Qed.

(** X9. The vocabulary of the answers.  Whatever a translate call returns is
    the input itself, as it was given, or a value of the table of the
    operation: no call makes up a term. *)
Theorem translate_returns_input_or_table_value :
  forall (lower : pystr -> pystr) (s : pystr) (st : Env),
    (forall r, fst (translate_condition lower s st) = Returned r ->
               r = s \/ In r (values (condition_mapping (self_ st))))
    /\ (forall r, fst (translate_system_type lower s st) = Returned r ->
                  r = s \/ In r (values (system_type_mapping (self_ st))))
    /\ (forall r, fst (translate_severity lower s st) = Returned r ->
                  r = s \/ In r (values (severity_mapping (self_ st)))).
Proof.
  intros lower s st.
  refine (conj _ (conj _ _)); intros r; unfold_translate.
  - destruct s as [|c s']; simpl is_falsy; cbv iota;
      [intros H; inversion H; auto|].
    destruct (PyDict.get _ _) as [v|] eqn:Eg; simpl.
    { intros H; inversion H; subst; right; eauto using get_In, In_values. }
    destruct (first_item (fun key _ => same_ignoring_case lower _ key) _)
      as [[k v]|] eqn:Eci; simpl.
    { intros H; inversion H; subst; right.
      apply first_item_In in Eci as [Hin _]; eauto using In_values. }
    destruct (first_item (fun key _ => partial_match lower _ key) _)
      as [[k v]|] eqn:Ep; simpl;
      destruct (info_enabled (logger st)); simpl;
      intros H; inversion H; subst; auto.
    right; apply first_item_In in Ep as [Hin _]; eauto using In_values.
  - destruct s as [|c s']; simpl is_falsy; cbv iota;
      [intros H; inversion H; auto|].
    destruct (PyDict.get _ _) as [v|] eqn:Eg; simpl.
    { intros H; inversion H; subst; right; eauto using get_In, In_values. }
    destruct (first_item _ _) as [[k v]|] eqn:Eci; simpl;
      intros H; inversion H; subst; auto.
    right; apply first_item_In in Eci as [Hin _]; eauto using In_values.
  - destruct s as [|c s']; simpl is_falsy; cbv iota;
      [intros H; inversion H; auto|].
    destruct (PyDict.get _ _) as [v|] eqn:Eg; simpl.
    { intros H; inversion H; subst; right; eauto using get_In, In_values. }
    destruct (first_item _ _) as [[k v]|] eqn:Eci; simpl;
      intros H; inversion H; subst; auto.
    right; apply first_item_In in Eci as [Hin _]; eauto using In_values.
Qed.

(** "chronic headache" is answered with "Headache", a value of the shipped
    condition table. *)
Lemma translate_returns_input_or_table_value_witness :
  u "Headache" = u "chronic headache"
  \/ In (u "Headache") (values (condition_mapping AYUSHTranslator_init)).
Proof.
  apply (proj1 (translate_returns_input_or_table_value lower_ascii
                  (u "chronic headache") (module_env default_logger))
           (u "Headache")).
  vm_compute; reflexivity.
Defined.

(* ------------------------------------------------------------------ *)
(** ** Surrounding whitespace *)

Lemma lstrip_lstrip (s : pystr) : lstrip (lstrip s) = lstrip s.
Proof.
  induction s as [|c s IH]; simpl; [reflexivity|].
  destruct (isspace c) eqn:E; [exact IH|].
  simpl; rewrite E; reflexivity.
Qed.

(** [lstrip] drops a prefix. *)
Lemma lstrip_suffix (s : pystr) : exists ws, s = ws ++ lstrip s.
Proof.
  induction s as [|c s [ws IH]]; simpl; [exists []; reflexivity|].
  destruct (isspace c).
  - exists (c :: ws); simpl; congruence.
  - exists []; reflexivity.
Qed.

(** A non-empty prefix of a string without leading whitespace has no leading
    whitespace. *)
Lemma lstrip_prefix (a b : pystr) :
  lstrip (a ++ b) = a ++ b -> a <> [] -> lstrip a = a.
Proof.
  destruct a as [|c a]; [congruence|]; simpl; intros H _.
  destruct (isspace c) eqn:E; [|reflexivity].
  exfalso.
  destruct (lstrip_suffix (a ++ b)) as [ws Hws].
  rewrite H in Hws.
  apply (f_equal (@List.length N)) in Hws.
  rewrite !length_app in Hws; simpl in Hws; rewrite ?length_app in Hws; lia.
Qed.

(** Trimming a trimmed string changes nothing. *)
Lemma strip_strip (s : pystr) : strip (strip s) = strip s.
Proof.
  unfold strip, rstrip.
  set (t := lstrip s).
  assert (Ht : lstrip t = t) by apply lstrip_lstrip.
  destruct (lstrip_suffix (rev t)) as [ws Hws].
  set (r := lstrip (rev t)) in *.
  assert (Hr : lstrip r = r) by apply lstrip_lstrip.
  assert (Hrr : lstrip (rev r) = rev r).
  { destruct r as [|c r'] eqn:Er; [reflexivity|].
    apply (@lstrip_prefix (rev (c :: r')) (rev ws)).
    - rewrite <- rev_app_distr, <- Hws, rev_involutive; exact Ht.
    - intros H; apply (f_equal (@rev N)) in H.
      rewrite rev_involutive in H; discriminate. }
  rewrite Hrr, rev_involutive, Hr; reflexivity.
Qed.

(** X10. Surrounding whitespace does not change the answer.  For an input that
    is not all whitespace: when a tier answers it, the outcome of the call
    is the outcome for the trimmed input; when no tier answers it,
    [translate_system_type] and [translate_severity] give the input back
    with its surrounding whitespace, as it was given. *)
Theorem translate_ignores_surrounding_whitespace :
  forall (lower : pystr -> pystr) (s : pystr) (st : Env),
    strip s <> [] ->
    ((answered_above_partial lower (condition_mapping (self_ st)) s
      || has_partial_key lower (strip s) (condition_mapping (self_ st))
      = true ->
      fst (translate_condition lower s st)
      = fst (translate_condition lower (strip s) st))
     /\ translate_system_type lower s st
        = (if answered_above_partial lower (system_type_mapping (self_ st)) s
           then translate_system_type lower (strip s) st
           else (Returned s, st))
     /\ translate_severity lower s st
        = (if answered_above_partial lower (severity_mapping (self_ st)) s
           then translate_severity lower (strip s) st
           else (Returned s, st))).
Proof.
  intros lower s st Hne.
  assert (Hs : is_falsy s = false).
  { destruct s; [exfalso; apply Hne; reflexivity | reflexivity]. }
  assert (Hs' : is_falsy (strip s) = false).
  { destruct (strip s); [congruence | reflexivity]. }
  unfold answered_above_partial, has_case_insensitive_key, has_partial_key,
    PyDict.mem, translate_condition, translate_system_type,
    translate_severity.
  rewrite Hs, Hs', strip_strip; cbv iota; cbn [orb].
  refine (conj _ (conj _ _)).
  - destruct (PyDict.get (strip s) (condition_mapping (self_ st)));
      [reflexivity|].
    destruct (first_item (fun key _ => same_ignoring_case lower (strip s) key)
                (PyDict.items (condition_mapping (self_ st))))
      as [[k v]|] eqn:Eci; [reflexivity|].
    apply first_item_none in Eci; simpl in Eci; rewrite Eci; cbn [orb].
    destruct (first_item (fun key _ => partial_match lower (strip s) key)
                (PyDict.items (condition_mapping (self_ st))))
      as [[k v]|] eqn:Ep.
    + intros _; unfold bind, ret, log_info, Logger_info; simpl.
      destruct (info_enabled (logger st)); reflexivity.
    + apply first_item_none in Ep; simpl in Ep; rewrite Ep; discriminate.
  - destruct (PyDict.get (strip s) (system_type_mapping (self_ st)));
      [reflexivity|].
    destruct (first_item (fun key _ => same_ignoring_case lower (strip s) key)
                (PyDict.items (system_type_mapping (self_ st))))
      as [[k v]|] eqn:Eci.
    + apply first_item_some in Eci; simpl in Eci; rewrite Eci; reflexivity.
    + apply first_item_none in Eci; simpl in Eci; rewrite Eci; reflexivity.
  - destruct (PyDict.get (strip s) (severity_mapping (self_ st)));
      [reflexivity|].
    destruct (first_item (fun key _ => same_ignoring_case lower (strip s) key)
                (PyDict.items (severity_mapping (self_ st))))
      as [[k v]|] eqn:Eci.
    + apply first_item_some in Eci; simpl in Eci; rewrite Eci; reflexivity.
    + apply first_item_none in Eci; simpl in Eci; rewrite Eci; reflexivity.
Qed.

(** " सिद्ध  " is answered as "सिद्ध" is: "Siddha". *)
Lemma translate_ignores_surrounding_whitespace_witness :
  translate_system_type lower_ascii (u " सिद्ध  ") (module_env default_logger)
  = (Returned (u "Siddha"), module_env default_logger).
Proof.
  assert (H : strip (u " सिद्ध  ") <> []) by (vm_compute; discriminate).
  destruct (@translate_ignores_surrounding_whitespace lower_ascii
              (u " सिद्ध  ") (module_env default_logger) H) as (_ & Hs & _).
  rewrite Hs; vm_compute; reflexivity.
Defined.

(** X11. An input of whitespace only.  Such a condition name is not empty, so
    it passes the guard, and its cleaned form is the empty string, which every
    key contains: on a table whose first item is [(k0, v0)] and that has no
    key that equals the empty string with case ignored, the partial tier
    answers with the first item of the table.  The call logs the match and
    returns [v0], or raises when the logger is enabled for INFO. *)
Theorem whitespace_only_condition_takes_first_entry :
  forall (lower : pystr -> pystr) (s k0 v0 : pystr)
         (rest : list (pystr * pystr)) (st : Env),
    lower [] = [] ->
    s <> [] ->
    strip s = [] ->
    condition_mapping (self_ st) = (k0, v0) :: rest ->
    has_case_insensitive_key lower [] (condition_mapping (self_ st)) = false ->
    fst (translate_condition lower s st)
    = (if info_enabled (logger st) then Raised TypeError else Returned v0)
    /\ calls (logger (snd (translate_condition lower s st)))
       = calls (logger st)
         ++ [mkLogCall "Partial match found for condition translation"
               [("original"%string, s); ("matched"%string, k0);
                ("translated"%string, v0)]].
Proof.
  intros lower s k0 v0 rest st Hlow Hs Hstrip Htable Hci.
  unfold translate_condition.
  destruct s as [|c s']; [congruence|]; simpl is_falsy; cbv iota.
  rewrite Hstrip.
  destruct (PyDict.get [] (condition_mapping (self_ st))) as [v|] eqn:Eg.
  { apply (get_has_case_insensitive_key lower) in Eg; congruence. }
  unfold has_case_insensitive_key in Hci.
  apply (proj2 (first_item_none
                  (fun key _ => same_ignoring_case lower [] key) _)) in Hci.
  rewrite Hci, Htable.
  unfold first_item, PyDict.items, partial_match; simpl find.
  rewrite Hlow.
  replace (contains [] (lower k0)) with true
    by (destruct (lower k0); reflexivity).
  rewrite orb_true_r.
  unfold bind, ret, log_info, Logger_info; simpl.
  destruct (info_enabled (logger st)); simpl; auto.
Qed.

(** Two spaces, on the shipped table: the answer is "Headache", the value of
    the first key "शिरःशूल". *)
Lemma whitespace_only_condition_witness :
  fst (translate_condition lower_ascii (u "  ") (module_env default_logger))
  = Returned (u "Headache").
Proof.
  refine (proj1 (@whitespace_only_condition_takes_first_entry lower_ascii
                   (u "  ") (u "शिरःशूल") (u "Headache")
                   (tl (condition_mapping AYUSHTranslator_init))
                   (module_env default_logger) _ _ _ _ _));
    vm_compute; (reflexivity || discriminate).
Defined.

(* ------------------------------------------------------------------ *)
(** ** Translating a translation *)

(** A value that the two tiers do not translate is returned as it is. *)
Lemma final_value_is_returned (lower : pystr -> pystr) (d : PyDict.t)
  (v : pystr) :
  value_is_final lower d v = true ->
  is_falsy v = false
  /\ PyDict.get (strip v) d = None
  /\ first_item (fun key _ => same_ignoring_case lower (strip v) key)
       (PyDict.items d) = None.
Proof.
  unfold value_is_final, PyDict.mem, has_case_insensitive_key; intros H.
  apply andb_true_iff in H as [H Hci].
  apply andb_true_iff in H as [Hf Hm].
  apply negb_true_iff in Hf, Hm, Hci.
  refine (conj Hf (conj _ _)).
  - destruct (PyDict.get (strip v) d); [discriminate | reflexivity].
  - apply first_item_none; exact Hci.
Qed.

Lemma values_are_final (lower : pystr -> pystr) (d : PyDict.t)
  (k v : pystr) :
  forallb (value_is_final lower d) (values d) = true ->
  In (k, v) (PyDict.items d) ->
  value_is_final lower d v = true.
Proof.
  intros H Hin; rewrite forallb_forall in H.
  apply H; eauto using In_values.
Qed.

(** X12. Translating twice.  On tables whose values the two tiers do not
    translate any further, [translate_system_type] and [translate_severity]
    are idempotent: the call returns a term, and the same call on that term
    returns it unchanged. *)
Theorem translate_system_type_and_severity_are_idempotent :
  forall (lower : pystr -> pystr) (s : pystr) (st : Env),
    forallb (value_is_final lower (system_type_mapping (self_ st)))
      (values (system_type_mapping (self_ st))) = true ->
    forallb (value_is_final lower (severity_mapping (self_ st)))
      (values (severity_mapping (self_ st))) = true ->
    (exists r, translate_system_type lower s st = (Returned r, st)
               /\ translate_system_type lower r st = (Returned r, st))
    /\ (exists r, translate_severity lower s st = (Returned r, st)
                  /\ translate_severity lower r st = (Returned r, st)).
Proof.
  intros lower s st Hsys Hsev.
  split.
  - unfold translate_system_type at 1.
    destruct (is_falsy s) eqn:Hs.
    { exists []; split; reflexivity. }
    destruct (PyDict.get (strip s) (system_type_mapping (self_ st)))
      as [v|] eqn:Eg.
    { exists v; split; [reflexivity|].
      apply get_In in Eg.
      destruct (final_value_is_returned _ _ _ (values_are_final _ _ _ _ Hsys Eg))
        as (Hf & Hg & Hci).
      unfold translate_system_type; rewrite Hf, Hg, Hci; reflexivity. }
    destruct (first_item (fun key _ => same_ignoring_case lower (strip s) key)
                (PyDict.items (system_type_mapping (self_ st))))
      as [[k v]|] eqn:Eci.
    { exists v; split; [reflexivity|].
      apply first_item_In in Eci as [Hin _].
      destruct (final_value_is_returned _ _ _
                  (values_are_final _ _ _ _ Hsys Hin)) as (Hf & Hg & Hci).
      unfold translate_system_type; rewrite Hf, Hg, Hci; reflexivity. }
    exists s; split; [reflexivity|].
    unfold translate_system_type; rewrite Hs, Eg, Eci; reflexivity.
  - unfold translate_severity at 1.
    destruct (is_falsy s) eqn:Hs.
    { exists []; split; reflexivity. }
    destruct (PyDict.get (strip s) (severity_mapping (self_ st)))
      as [v|] eqn:Eg.
    { exists v; split; [reflexivity|].
      apply get_In in Eg.
      destruct (final_value_is_returned _ _ _ (values_are_final _ _ _ _ Hsev Eg))
        as (Hf & Hg & Hci).
      unfold translate_severity; rewrite Hf, Hg, Hci; reflexivity. }
    destruct (first_item (fun key _ => same_ignoring_case lower (strip s) key)
                (PyDict.items (severity_mapping (self_ st))))
      as [[k v]|] eqn:Eci.
    { exists v; split; [reflexivity|].
      apply first_item_In in Eci as [Hin _].
      destruct (final_value_is_returned _ _ _
                  (values_are_final _ _ _ _ Hsev Hin)) as (Hf & Hg & Hci).
      unfold translate_severity; rewrite Hf, Hg, Hci; reflexivity. }
    exists s; split; [reflexivity|].
    unfold translate_severity; rewrite Hs, Eg, Eci; reflexivity.
Qed.

(** The shipped system-type and severity tables are such tables: "मध्यम" is
    answered with "Moderate", and "Moderate" with "Moderate". *)
Lemma translate_system_type_and_severity_idempotent_witness :
  exists r,
    translate_severity lower_ascii (u "मध्यम") (module_env default_logger)
    = (Returned r, module_env default_logger)
    /\ translate_severity lower_ascii r (module_env default_logger)
       = (Returned r, module_env default_logger).
Proof.
  refine (proj2 (@translate_system_type_and_severity_are_idempotent
                   lower_ascii (u "मध्यम") (module_env default_logger) _ _));
    vm_compute; reflexivity.
Defined.

(** [translate_condition] is not idempotent on the shipped table: "حرارت" is
    answered with "Heat/Fever", and "Heat/Fever", which contains the key
    "fever", with "Fever". *)
Example translate_condition_twice :
  fst (translate_condition lower_ascii (u "حرارت") (module_env default_logger))
  = Returned (u "Heat/Fever")
  /\ fst (translate_condition lower_ascii (u "Heat/Fever")
            (module_env default_logger))
     = Returned (u "Fever").
Proof. split; vm_compute; reflexivity. Qed.

(* ------------------------------------------------------------------ *)
(** ** The upload endpoint *)

(** The module binds no name [io]. *)
Lemma io_is_not_bound :
  Endpoints.read_name "io" = Endpoints.Raise (Endpoints.NameError "io").
Proof. reflexivity. Qed.

(** X13. Every upload is answered with 500.  Whatever the name and the content
    of the uploaded file, whatever [str.lower] computes and whatever
    [process_tm2_file] would do, [trigger_ingestion] raises
    [HTTPException(status_code=500, detail="Internal server error")]:
    - an upload without a file name fails on [file.filename.lower()];
    - for a name that does not end in ".csv" the [HTTPException] with status
      400 is raised inside the [try] statement, where [except Exception]
      catches it, [HTTPException] being no [ValueError];
    - for a name that ends in ".csv" the argument [io.BytesIO(file_content)]
      is evaluated before [process_tm2_file] is called, and the module
      binds no name [io].
    So the endpoint never calls [process_tm2_file], never returns a
    [ProcessingResult] and never answers 400. *)
Theorem trigger_ingestion_always_raises_500 :
  forall (lower : pystr -> pystr) (Processed Response : Type)
         (process_tm2_file : list N -> pystr -> Endpoints.Result Processed)
         (to_processing_result : Processed -> Response)
         (filename : option pystr) (file_content : list N),
    Endpoints.trigger_ingestion lower process_tm2_file to_processing_result
      filename file_content
    = Endpoints.Raise
        (Endpoints.HTTPException 500 "Internal server error").
Proof.
  intros lower Processed Response process_tm2_file to_processing_result
    filename file_content.
  unfold Endpoints.trigger_ingestion, Endpoints.try_block.
  destruct filename as [name|]; [|reflexivity].
  destruct (Endpoints.endswith (u ".csv") (lower name)); simpl negb; cbv iota.
  - rewrite io_is_not_bound; reflexivity.
  - reflexivity.
Qed.
